(** * maartech-test: the CSV-to-PostgreSQL importer of run.py

    A shallow embedding of [run.py] and of the parts of its libraries that
    decide what the script does (pathlib's [glob] and [stem], psycopg2's
    [sql] composition and cursor interface, Python's exception handling),
    followed by the properties of the import pipeline.

    The outside world (configuration file, file system, database server)
    is a value of type [World]; every call that leaves the process is
    recorded, with its outcome, in a chronological trace.

    The last part states the import once more over an arbitrary driver
    ([Driver]): what the script does with a table and with the rows of a
    file is proved for every driver, and [psycopg2], the driver the
    script imports, is one of them. *)

From Stdlib Require Import String Ascii List Bool Arith ZArith Lia.
Import ListNotations.
Open Scope string_scope.

Set Warnings "-register-all".

(** ** Python exceptions and results *)

Module Py.

(** The exception classes that can occur in a run of the script.
    [Psycopg2Error] stands for [psycopg2.Error] and its subclasses
    (OperationalError, InterfaceError, DataError, IntegrityError, ...),
    [OSError] for OSError and its subclasses (FileNotFoundError,
    PermissionError, ...) as [open] and [stat] raise them, [YAMLError] for
    [yaml.YAMLError].  [KeyboardInterrupt] derives from [BaseException]
    only. *)
Inductive exn : Type :=
| TypeError
| KeyError
| IndexError
| ValueError
| AttributeError
| UnboundLocalError
| OSError
| YAMLError
| Psycopg2Error
| KeyboardInterrupt.

(** [isinstance(e, Exception)]: what an [except Exception:] clause catches. *)
Definition is_Exception (e : exn) : bool :=
  match e with
  | KeyboardInterrupt => false
  | _ => true
  end.

Inductive result (A : Type) : Type :=
| Ok (a : A)
| Raise (e : exn).
Arguments Ok {A} a.
Arguments Raise {A} e.

(** Values that [yaml.safe_load] produces and the script passes around. *)
Inductive pyval : Type :=
| PNone
| PStr (s : string)
| PInt (z : Z)
| PDict (items : list (string * pyval)).

Fixpoint dict_get (items : list (string * pyval)) (k : string) : option pyval :=
  match items with
  | [] => None
  | (k', v) :: rest => if String.eqb k' k then Some v else dict_get rest k
  end.

(** [v[k]] for a string key [k]: only a dict can be subscripted with it;
    [None[k]], ["abc"[k]] and [5[k]] raise TypeError, a missing key
    raises KeyError. *)
Definition subscript (v : pyval) (k : string) : result pyval :=
  match v with
  | PDict items =>
      match dict_get items k with
      | Some x => Ok x
      | None => Raise KeyError
      end
  | _ => Raise TypeError
  end.

End Py.
Import Py.

(** ** Strings and paths *)

Definition nl : string := String (ascii_of_nat 10) EmptyString.

Definition join_lines (ls : list string) : string := String.concat nl ls.

Definition is_empty (s : string) : bool :=
  match s with
  | EmptyString => true
  | String _ _ => false
  end.

(** [s.rfind(c)], with [None] for Python's -1. *)
Fixpoint rfind (c : ascii) (s : string) : option nat :=
  match s with
  | EmptyString => None
  | String a rest =>
      match rfind c rest with
      | Some i => Some (S i)
      | None => if Ascii.eqb a c then Some 0 else None
      end
  end.

(** [fnmatch] restricted to the wildcards [*] and [?], case-sensitive as
    on POSIX; the only pattern of the script is ["*.csv"]. *)
Fixpoint fnmatch (pat name : string) : bool :=
  match pat with
  | EmptyString => is_empty name
  | String c pat' =>
      if Ascii.eqb c "*" then
        (fix star (n : string) : bool :=
           fnmatch pat' n ||
           match n with
           | EmptyString => false
           | String _ n' => star n'
           end) name
      else
        match name with
        | EmptyString => false
        | String d n' =>
            (Ascii.eqb c "?" || Ascii.eqb c d) && fnmatch pat' n'
        end
  end.

Module Pathlib.

(** A path as [glob] yields it: the directory it was found in and its
    final component. *)
Record Path : Type := mkPath { parent : string; name : string }.

Definition Path_eqb (p q : Path) : bool :=
  String.eqb (parent p) (parent q) && String.eqb (name p) (name q).

(** [str(p)] *)
Definition to_str (p : Path) : string := parent p ++ "/" ++ name p.

(** [PurePath.stem]: the final component without its last suffix;
    [i = name.rfind('.')], and the name is cut at [i] when
    [0 < i < len(name) - 1]. *)
Definition stem (p : Path) : string :=
  match rfind "." (name p) with
  | Some i =>
      if ((0 <? i) && (i <? String.length (name p) - 1))%nat
      then substring 0 i (name p)
      else name p
  | None => name p
  end.

(** What the file system has at a directory path.  [Directory false _]
    is a directory whose listing is denied ([scandir] raises
    PermissionError).  [Inaccessible] is a path that cannot be examined:
    [stat] fails with an OSError that pathlib does not take for an absent
    path (anything but ENOENT, ENOTDIR, EBADF, ELOOP: EACCES below an
    unsearchable ancestor, ENAMETOOLONG), or the scan fails with an
    OSError other than PermissionError. *)
Inductive fsnode : Type :=
| Missing
| RegularFile
| Directory (readable : bool) (entries : list string)
| Inaccessible.

(** [Path(dir).glob(pattern)] for a pattern without separators, consumed
    to the end.  [select_from] calls [is_dir] outside any handler:
    [is_dir] is false for an absent path or a file, and then nothing is
    yielded, but it re-raises the other errors of [stat].  The scan
    swallows PermissionError only.  Otherwise the children whose name
    matches are yielded in directory order. *)
Definition glob (node : fsnode) (dir pattern : string) : result (list Path) :=
  match node with
  | Directory true entries =>
      Ok (map (mkPath dir) (filter (fnmatch pattern) entries))
  | Directory false _ => Ok []
  | Missing | RegularFile => Ok []
  | Inaccessible => Raise OSError
  end.

End Pathlib.
Import Pathlib.

(** ** psycopg2.sql: composition of SQL statements *)

Module Sql.

(** The [Composable] hierarchy: a literal SQL snippet, an identifier to
    be quoted, and the sequence that [format] returns. *)
Inductive Composable : Type :=
| SQL (wrapped : string)
| Identifier (ident : string)
| Composed (seq : list Composable).

(** An argument handed to [SQL.format]: any Python object; the script
    passes a [str]. *)
Inductive pyarg : Type :=
| ArgStr (s : string)
| ArgComposable (c : Composable).

Definition dquote : ascii := ascii_of_nat 34.

(** [s.replace(dquote, dquote + dquote)] *)
Fixpoint double_dquotes (s : string) : string :=
  match s with
  | EmptyString => EmptyString
  | String c rest =>
      if Ascii.eqb c dquote
      then String dquote (String dquote (double_dquotes rest))
      else String c (double_dquotes rest)
  end.

(** [ext.quote_ident]: the identifier between double quotes, embedded
    double quotes doubled. *)
Definition quote_ident (s : string) : string :=
  String dquote (double_dquotes s) ++ String dquote EmptyString.

(** [Composable.as_string]: the text that [cursor.execute] sends. *)
Fixpoint as_string (c : Composable) : string :=
  match c with
  | SQL s => s
  | Identifier s => quote_ident s
  | Composed seq => String.concat EmptyString (map as_string seq)
  end.

(** One chunk of [string.Formatter().parse]: the literal text and, when a
    replacement field follows it, the text between its braces. *)
Definition chunk : Type := string * option string.

Definition snoc (s : string) (c : ascii) : string := s ++ String c EmptyString.

(** [Formatter.parse] as a lazy iterator: the chunks read so far and the
    ValueError that stops the iteration, if one does (a single closing
    brace, or a field that is never closed).  A doubled brace ends a chunk
    whose literal keeps one brace.  [fld] is [Some f] while the scanner is
    inside a replacement field. *)
Fixpoint parse_from (s : string) (lit : string) (fld : option string)
  : list chunk * option exn :=
  match fld with
  | None =>
      match s with
      | EmptyString => (if is_empty lit then [] else [(lit, None)], None)
      | String c rest =>
          if Ascii.eqb c "{" then
            match rest with
            | String c2 rest2 =>
                if Ascii.eqb c2 "{" then
                  let '(cs, err) := parse_from rest2 EmptyString None in
                  ((snoc lit c, None) :: cs, err)
                else parse_from rest lit (Some EmptyString)
            | EmptyString => ([], Some ValueError)
            end
          else if Ascii.eqb c "}" then
            match rest with
            | String c2 rest2 =>
                if Ascii.eqb c2 "}" then
                  let '(cs, err) := parse_from rest2 EmptyString None in
                  ((snoc lit c, None) :: cs, err)
                else ([], Some ValueError)
            | EmptyString => ([], Some ValueError)
            end
          else parse_from rest (snoc lit c) None
      end
  | Some f =>
      match s with
      | EmptyString => ([], Some ValueError)
      | String c rest =>
          if Ascii.eqb c "}" then
            let '(cs, err) := parse_from rest EmptyString None in
            ((lit, Some f) :: cs, err)
          else parse_from rest lit (Some (snoc f c))
      end
  end.

Definition parse (template : string) : list chunk * option exn :=
  parse_from template EmptyString None.

Definition is_digit (c : ascii) : bool :=
  let n := nat_of_ascii c in ((48 <=? n) && (n <=? 57))%nat.

(** [name.isdigit()] *)
Fixpoint all_digits (s : string) : bool :=
  match s with
  | EmptyString => true
  | String c rest => is_digit c && all_digits rest
  end.

Definition isdigit (s : string) : bool := negb (is_empty s) && all_digits s.

(** [int(name)] for a string of digits *)
Fixpoint int_of_digits (acc : nat) (s : string) : nat :=
  match s with
  | EmptyString => acc
  | String c rest => int_of_digits (10 * acc + (nat_of_ascii c - 48)) rest
  end.

Fixpoint has_char (c : ascii) (s : string) : bool :=
  match s with
  | EmptyString => false
  | String a rest => Ascii.eqb a c || has_char c rest
  end.

(** The loop of [SQL.format]: a field with a conversion ([!]) or a format
    specification ([:]) is refused; the literal before a field becomes an
    [SQL]; a numbered field takes [args[int(name)]], an empty one
    [args[autonum]], a named one [kwargs[name]].  [autonum = None] after a
    numbered field.  [stop] is the error that ends the iteration of the
    chunks. *)
Fixpoint format_loop (cs : list chunk) (stop : option exn)
  (args : list pyarg) (kwargs : list (string * pyarg))
  (autonum : option nat) (rv : list pyarg) : result (list pyarg) :=
  match cs with
  | [] =>
      match stop with
      | Some e => Raise e
      | None => Ok rv
      end
  | (pre, fld) :: cs' =>
      let rv1 := if is_empty pre then rv else (rv ++ [ArgComposable (SQL pre)])%list in
      match fld with
      | None => format_loop cs' stop args kwargs autonum rv1
      | Some name =>
          if has_char "!" name || has_char ":" name then Raise ValueError
          else if isdigit name then
            match autonum with
            | Some (S _) => Raise ValueError
            | _ =>
                match nth_error args (int_of_digits 0 name) with
                | Some a => format_loop cs' stop args kwargs None (rv1 ++ [a])%list
                | None => Raise IndexError
                end
            end
          else if is_empty name then
            match autonum with
            | None => Raise ValueError
            | Some n =>
                match nth_error args n with
                | Some a => format_loop cs' stop args kwargs (Some (S n)) (rv1 ++ [a])%list
                | None => Raise IndexError
                end
            end
          else
            match find (fun kv => String.eqb (fst kv) name) kwargs with
            | Some kv => format_loop cs' stop args kwargs autonum (rv1 ++ [snd kv])%list
            | None => Raise KeyError
            end
      end
  end.

(** [Composed.__init__]: every element must be a [Composable]; the first
    one that is not raises TypeError. *)
Fixpoint Composed_init (seq : list pyarg) : result (list Composable) :=
  match seq with
  | [] => Ok []
  | ArgStr _ :: _ => Raise TypeError
  | ArgComposable c :: rest =>
      match Composed_init rest with
      | Ok cs => Ok (c :: cs)
      | Raise e => Raise e
      end
  end.

(** [SQL(template).format] with positional arguments [args] and keyword
    arguments [kwargs] *)
Definition format (template : string) (args : list pyarg)
  (kwargs : list (string * pyarg)) : result Composable :=
  let '(cs, stop) := parse template in
  match format_loop cs stop args kwargs (Some 0) [] with
  | Raise e => Raise e
  | Ok rv =>
      match Composed_init rv with
      | Ok seq => Ok (Composed seq)
      | Raise e => Raise e
      end
  end.

End Sql.
Import Sql.

(** ** The outside world and the trace of a run *)

Inductive level : Type := INFO | ERROR.

(** The messages the script logs. *)
Inductive logmsg : Type :=
| AppStarted
| ConfigFailed
| Importing (file_path : Path) (file_name : string)
| ImportFailed (file_path : Path) (file_name : string)
| ImportComplete
| RunFailed.

(** The text of a message, as the [format] calls of the script build it. *)
Definition render (m : logmsg) : string :=
  match m with
  | AppStarted => "Application started."
  | ConfigFailed => "Failed to load YAML config file."
  | Importing p t =>
      "Importing file " ++ to_str p ++ " into database table " ++ t ++ "."
  | ImportFailed p t =>
      "Failed to import file " ++ to_str p ++ " into database table " ++ t
  | ImportComplete => "Import complete."
  | RunFailed =>
      "An error occurred whilst importing data files into the database"
  end.

(** The calls that leave the process. *)
Inductive call : Type :=
| OpenYaml (config_path : string)
| Glob (dir pattern : string)
| Connect (params : list (string * pyval))
| ConnCursor
| ConnCommit
| ConnClose
| CurExecute (statement : string)
| CurCommit
| CurCopyExpert (statement : string) (data : list string)
| CurClose
| OpenFile (file : Path)
| FileClose (file : Path).

(** One step of a run: a call of [logging.info] or [logging.error], or a
    call that leaves the process, with the exception it raised ([None]
    when it returned).  A [Log] entry records the call, not its output:
    the script configures no handler, so the root logger's default level
    lets only the ERROR calls through. *)
Inductive entry : Type :=
| Log (lvl : level) (msg : logmsg)
| Ext (c : call) (raised : option exn).

(** The environment of a run.  [yaml_file p] is what [open(p)] followed
    by [yaml.safe_load] gives; [fs] is the directory tree; [csv_file p]
    is what [open(p, 'r')] gives, the lines of the file or the exception;
    [db h c] is the exception the driver raises for the database call [c]
    after the history [h], [None] when the call goes through. *)
Record World : Type := mkWorld {
  yaml_file : string -> result pyval;
  fs : string -> fsnode;
  csv_file : Path -> result (list string);
  db : list entry -> call -> option exn
}.

(** ** Computations: trace passing with Python's exceptions *)

Definition M (A : Type) : Type := World -> list entry -> result A * list entry.

Definition ret {A} (a : A) : M A := fun _ tr => (Ok a, tr).

Definition raise {A} (e : exn) : M A := fun _ tr => (Raise e, tr).

Definition lift {A} (r : result A) : M A := fun _ tr => (r, tr).

Definition bind {A B} (m : M A) (k : A -> M B) : M B :=
  fun w tr =>
    match m w tr with
    | (Ok a, tr') => k a w tr'
    | (Raise e, tr') => (Raise e, tr')
    end.

Declare Scope py_scope.
Delimit Scope py_scope with py.
Notation "x <- m ;; k" := (bind m (fun x => k))
  (at level 61, m at next level, right associativity) : py_scope.
Notation "m ;; k" := (bind m (fun _ => k))
  (at level 61, right associativity) : py_scope.
Open Scope py_scope.

Definition outcome {A} (r : result A) : option exn :=
  match r with
  | Ok _ => None
  | Raise e => Some e
  end.

Definition record (e : entry) (tr : list entry) : list entry := (tr ++ [e])%list.

(** [logging.info(msg)] and [logging.error(msg, exc_info=1)] *)
Definition logging (lvl : level) (msg : logmsg) : M unit :=
  fun _ tr => (Ok tt, record (Log lvl msg) tr).

(** A call to the database driver: the world decides whether it raises. *)
Definition db_call (c : call) : M unit :=
  fun w tr =>
    let o := db w tr c in
    (match o with Some e => Raise e | None => Ok tt end, record (Ext c o) tr).

(** [try: body  except Exception: handler] *)
Definition try_except_Exception {A} (body handler : M A) : M A :=
  fun w tr =>
    match body w tr with
    | (Raise e, tr') => if is_Exception e then handler w tr' else (Raise e, tr')
    | (Ok a, tr') => (Ok a, tr')
    end.

(** [try: body  finally: fin]: [fin] always runs; an exception of [fin]
    replaces the outcome of [body]. *)
Definition try_finally {A} (body : M A) (fin : M unit) : M A :=
  fun w tr =>
    let '(r, tr1) := body w tr in
    match fin w tr1 with
    | (Ok _, tr2) => (r, tr2)
    | (Raise e, tr2) => (Raise e, tr2)
    end.

(** A [try] suite that starts by assigning a local variable:
    [try: x = acquire; body(x)  except Exception: handler  finally: fin].
    The [finally] suite reads the variable, so it is given [Some x] when
    the assignment happened and [None] when [acquire] raised before it. *)
Definition try_assign_except_finally {X A}
  (acquire : M X) (body : X -> M A) (handler : M A)
  (fin : option X -> M unit) : M A :=
  fun w tr =>
    match acquire w tr with
    | (Ok x, tr1) =>
        try_finally (try_except_Exception (body x) handler) (fin (Some x)) w tr1
    | (Raise e, tr1) =>
        try_finally (try_except_Exception (raise e) handler) (fin None) w tr1
    end.

(** [for x in xs: body(x)]: an exception leaves the loop. *)
Fixpoint for_each {X} (xs : list X) (body : X -> M unit) : M unit :=
  match xs with
  | [] => ret tt
  | x :: rest => body x ;; for_each rest body
  end.

(** ** psycopg2 connections and cursors *)

Inductive Connection : Type := TheConnection.
Inductive Cursor : Type := CursorOf (conn : Connection).

(** The attributes of [psycopg2.extensions.connection]. *)
Definition connection_attrs : list string :=
  [ "DataError"; "DatabaseError"; "Error"; "IntegrityError"; "InterfaceError";
    "InternalError"; "NotSupportedError"; "OperationalError";
    "ProgrammingError"; "Warning"; "async"; "async_"; "autocommit";
    "binary_types"; "cancel"; "close"; "closed"; "commit"; "cursor";
    "cursor_factory"; "deferrable"; "dsn"; "encoding"; "fileno";
    "get_backend_pid"; "get_dsn_parameters"; "get_native_connection";
    "get_parameter_status"; "get_transaction_status"; "info"; "isexecuting";
    "isolation_level"; "lobject"; "notices"; "notifies"; "pgconn_ptr"; "poll";
    "protocol_version"; "readonly"; "reset"; "rollback"; "server_version";
    "set_client_encoding"; "set_isolation_level"; "set_session"; "status";
    "string_types"; "tpc_begin"; "tpc_commit"; "tpc_prepare"; "tpc_recover";
    "tpc_rollback"; "xid" ].

(** The attributes of [psycopg2.extensions.cursor]; [commit] belongs to
    the connection and is not among them. *)
Definition cursor_attrs : list string :=
  [ "arraysize"; "binary_types"; "callproc"; "cast"; "close"; "closed";
    "connection"; "copy_expert"; "copy_from"; "copy_to"; "description";
    "execute"; "executemany"; "fetchall"; "fetchmany"; "fetchone"; "itersize";
    "lastrowid"; "mogrify"; "name"; "nextset"; "pgresult_ptr"; "query";
    "row_factory"; "rowcount"; "rownumber"; "scroll"; "scrollable";
    "setinputsizes"; "setoutputsize"; "statusmessage"; "string_types";
    "typecaster"; "tzinfo_factory"; "withhold" ].

Definition has_attr (attrs : list string) (attr : string) : bool :=
  existsb (String.eqb attr) attrs.

(** [obj.attr(...)]: the attribute lookup raises AttributeError when the
    object has no such attribute, otherwise the method is called. *)
Definition call_method (attrs : list string) (attr : string) (c : call) : M unit :=
  if has_attr attrs attr then db_call c else raise AttributeError.

Definition connection_method (conn : Connection) := call_method connection_attrs.
Definition cursor_method (cur : Cursor) := call_method cursor_attrs.

(** [conn.cursor()] *)
Definition conn_cursor (conn : Connection) : M Cursor :=
  connection_method conn "cursor" ConnCursor ;; ret (CursorOf conn).

(** [open(config_path)] followed by [yaml.safe_load]. *)
Definition open_yaml (config_path : string) : M pyval :=
  fun w tr =>
    let r := yaml_file w config_path in
    (r, record (Ext (OpenYaml config_path) (outcome r)) tr).

(** [Path(directory).glob(pattern)], consumed to the end by the list
    comprehension of line 84. *)
Definition path_glob (directory pattern : string) : M (list Path) :=
  fun w tr =>
    let r := glob (fs w directory) directory pattern in
    (r, record (Ext (Glob directory pattern) (outcome r)) tr).

(** [open(file_path, 'r')]: the lines of the file. *)
Definition open_file (file_path : Path) : M (list string) :=
  fun w tr =>
    let r := csv_file w file_path in
    (r, record (Ext (OpenFile file_path) (outcome r)) tr).

Definition file_close (file_path : Path) : M unit :=
  fun _ tr => (Ok tt, record (Ext (FileClose file_path) None) tr).

(** [with open(file_path, 'r') as f: body(f)]; the file object is closed
    on the way out. *)
Definition with_open {A} (file_path : Path) (body : list string -> M A) : M A :=
  f <- open_file file_path ;;
  try_finally (body f) (file_close file_path).

(** ** run.py *)

(** The literal handed to [sql.SQL] at lines 97-121 of run.py, one list element per source line (blank and trailing-blank lines included). *)
Definition CREATE_TABLE_SQL : string :=
  join_lines
    [ EmptyString;
      "            ";
      "                CREATE TABLE IF NOT EXISTS {table_name} (";
      "                    ";
      "                    osm_id INTEGER PRIMARY KEY,";
      "                    area NUMERIC NOT NULL, ";
      "                    lon NUMERIC NOT NULL, ";
      "                    lat NUMERIC NOT NULL, ";
      "                    tags JSONB, ";
      "                    osm_type VARCHAR(25) NOT NULL, ";
      "                    p_tag_value TEXT, ";
      "                    city TEXT, ";
      "                    postcode TEXT, ";
      "                    address TEXT, ";
      "                    street TEXT, ";
      "                    has_way BOOLEAN NOT NULL,";
      "                    shop_type TEXT,";
      "                    derived_shared_area NUMERIC,";
      "                    derived_way_area NUMERIC,";
      "                    parent_way INTEGER, ";
      "                    shared_divisor INTEGER, ";
      "                    area_sq_foot NUMERIC NOT NULL";
      "                )";
      "            ";
      "            " ].

(** The literal handed to [sql.SQL] at lines 129-132 of run.py. *)
Definition COPY_SQL : string :=
  join_lines
    [ EmptyString;
      "                            COPY {table_name} FROM stdin WITH CSV HEADER";
      "                            DELIMITER as ','";
      "                            " ].

(** [read_yaml_config], lines 67-75: the parsed document, or [None]
    after logging when [open] or [safe_load] raised. *)
Definition read_yaml_config (config_path : string) : M pyval :=
  try_except_Exception
    (open_yaml config_path)
    (logging ERROR ConfigFailed ;; ret PNone).

(** [list_files], lines 77-84.  [Path(search_folder)] raises TypeError
    for anything but a string. *)
Definition list_files (search_folder : pyval) : M (list Path) :=
  let pattern := "*.csv" in
  match search_folder with
  | PStr directory => path_glob directory pattern
  | _ => raise TypeError
  end.

(** The suite under [with conn.cursor() as cur:], lines 97-134. *)
Definition import_suite (file_path : Path) (file_name : string) (cur : Cursor)
  : M unit :=
  query <- lift (format CREATE_TABLE_SQL [] [("table_name", ArgStr file_name)]) ;;
  cursor_method cur "execute" (CurExecute (as_string query)) ;;
  cursor_method cur "commit" CurCommit ;;
  with_open file_path (fun f =>
    query <- lift (format COPY_SQL [] [("table_name", ArgStr file_name)]) ;;
    cursor_method cur "copy_expert" (CurCopyExpert (as_string query) f)).

(** [import_file_to_database], lines 86-141.  [cur] is assigned by the
    [with] statement inside the [try]; nothing assigns it before, so the
    [finally] suite raises UnboundLocalError when [conn.cursor()] raised.
    The cursor's [__exit__] closes it when the [with] block is left. *)
Definition import_file_to_database (file_path : Path) (conn : Connection)
  : M unit :=
  let file_name := stem file_path in
  try_assign_except_finally
    (logging INFO (Importing file_path file_name) ;; conn_cursor conn)
    (fun cur =>
       try_finally (import_suite file_path file_name cur)
                   (cursor_method cur "close" CurClose))
    (logging ERROR (ImportFailed file_path file_name))
    (fun cur =>
       match cur with
       | Some c => cursor_method c "close" CurClose
       | None => raise UnboundLocalError
       end).

(** [connect] applied to the unpacked [config['db']], line 53: the
    unpacking needs a mapping. *)
Definition connect (config : pyval) : M Connection :=
  db_cfg <- lift (subscript config "db") ;;
  match db_cfg with
  | PDict params => db_call (Connect params) ;; ret TheConnection
  | _ => raise TypeError
  end.

(** [run], lines 39-65.  [db_conn] is [None] from line 44 on, so the
    [finally] suite skips [close] when [connect] raised. *)
Definition run (config : string) : M unit :=
  logging INFO AppStarted ;;
  config <- read_yaml_config config ;;
  target_path <- lift (subscript config "target_path") ;;
  files <- list_files target_path ;;
  try_assign_except_finally
    (connect config)
    (fun db_conn =>
       for_each files (fun file => import_file_to_database file db_conn) ;;
       logging INFO ImportComplete)
    (logging ERROR RunFailed)
    (fun db_conn =>
       match db_conn with
       | Some c => connection_method c "close" ConnClose
       | None => ret tt
       end).

(** ** The column list of the CREATE TABLE statement *)

Module Schema.

Inductive sqltype : Type :=
| INTEGER
| NUMERIC
| JSONB
| VARCHAR (n : nat)
| TEXT
| BOOLEAN.

Record column : Type := mkColumn {
  col_name : string;
  col_type : sqltype;
  nullable : bool;
  primary_key : bool
}.

Definition is_space (c : ascii) : bool :=
  let n := nat_of_ascii c in
  ((n =? 32) || (n =? 10) || (n =? 9) || (n =? 13))%nat.

(** [s.split(sep)], [cur] being the piece under construction. *)
Fixpoint split_on (sep : ascii -> bool) (s : string) (cur : string)
  : list string :=
  match s with
  | EmptyString => [cur]
  | String c rest =>
      if sep c then cur :: split_on sep rest EmptyString
      else split_on sep rest (snoc cur c)
  end.

(** [s.split()]: the maximal runs of non-blank characters. *)
Definition words (s : string) : list string :=
  filter (fun x => negb (is_empty x)) (split_on is_space s EmptyString).

Fixpoint after_first (c : ascii) (s : string) : option string :=
  match s with
  | EmptyString => None
  | String a rest => if Ascii.eqb a c then Some rest else after_first c rest
  end.

(** The text between the first opening and the last closing parenthesis. *)
Definition column_list_text (stmt : string) : option string :=
  match after_first "(" stmt with
  | Some body =>
      match rfind ")" body with
      | Some i => Some (substring 0 i body)
      | None => None
      end
  | None => None
  end.

Definition read_type (w : string) : option sqltype :=
  if String.eqb w "INTEGER" then Some INTEGER
  else if String.eqb w "NUMERIC" then Some NUMERIC
  else if String.eqb w "JSONB" then Some JSONB
  else if String.eqb w "TEXT" then Some TEXT
  else if String.eqb w "BOOLEAN" then Some BOOLEAN
  else
    let len := String.length w in
    let digits := substring 8 (len - 9) w in
    if String.prefix "VARCHAR(" w
       && String.eqb (substring (len - 1) 1 w) ")"
       && isdigit digits
    then Some (VARCHAR (int_of_digits 0 digits))
    else None.

(** One column definition: a name, a type, and nothing, [NOT NULL] or
    [PRIMARY KEY] (which implies NOT NULL). *)
Definition read_column (def : string) : option column :=
  match words def with
  | name :: ty :: constraints =>
      match read_type ty with
      | Some t =>
          match constraints with
          | [] => Some (mkColumn name t true false)
          | [w1; w2] =>
              if String.eqb w1 "NOT" && String.eqb w2 "NULL"
              then Some (mkColumn name t false false)
              else if String.eqb w1 "PRIMARY" && String.eqb w2 "KEY"
              then Some (mkColumn name t false true)
              else None
          | _ => None
          end
      | None => None
      end
  | _ => None
  end.

Fixpoint read_columns (defs : list string) : option (list column) :=
  match defs with
  | [] => Some []
  | d :: rest =>
      match read_column d, read_columns rest with
      | Some c, Some cs => Some (c :: cs)
      | _, _ => None
      end
  end.

(** The columns that a CREATE TABLE text declares. *)
Definition create_table_columns (stmt : string) : option (list column) :=
  match column_list_text stmt with
  | Some body => read_columns (split_on (Ascii.eqb ",") body EmptyString)
  | None => None
  end.

(** The fixed schema as the specification lists it (section 4.2): column
    name, semantic type, nullability; integer is [INTEGER], numeric
    [NUMERIC], structured/JSON [JSONB], string of at most 25 characters
    [VARCHAR 25], text [TEXT], boolean [BOOLEAN]. *)
Definition TableSchema : list column :=
  [ mkColumn "osm_id" INTEGER false true;
    mkColumn "area" NUMERIC false false;
    mkColumn "lon" NUMERIC false false;
    mkColumn "lat" NUMERIC false false;
    mkColumn "tags" JSONB true false;
    mkColumn "osm_type" (VARCHAR 25) false false;
    mkColumn "p_tag_value" TEXT true false;
    mkColumn "city" TEXT true false;
    mkColumn "postcode" TEXT true false;
    mkColumn "address" TEXT true false;
    mkColumn "street" TEXT true false;
    mkColumn "has_way" BOOLEAN false false;
    mkColumn "shop_type" TEXT true false;
    mkColumn "derived_shared_area" NUMERIC true false;
    mkColumn "derived_way_area" NUMERIC true false;
    mkColumn "parent_way" INTEGER true false;
    mkColumn "shared_divisor" INTEGER true false;
    mkColumn "area_sq_foot" NUMERIC false false ].

End Schema.
Import Schema.

(** ** Observations on a trace *)

Definition trace_of {A} (r : result A * list entry) : list entry := snd r.

(** A file is taken up by [import_file_to_database]: its first action is
    the log record of line 92. *)
Definition attempted (file_path : Path) (tr : list entry) : bool :=
  existsb (fun e =>
             match e with
             | Log INFO (Importing p _) => Path_eqb p file_path
             | _ => false
             end) tr.

(** The entries that belong to the processing of a file. *)
Definition is_file_activity (e : entry) : bool :=
  match e with
  | Log _ (Importing _ _) | Log _ (ImportFailed _ _) => true
  | Ext ConnCursor _ | Ext (CurExecute _) _ | Ext CurCommit _
  | Ext (CurCopyExpert _ _) _ | Ext CurClose _
  | Ext (OpenFile _) _ | Ext (FileClose _) _ => true
  | _ => false
  end.

Definition is_connect (e : entry) : bool :=
  match e with
  | Ext (Connect _) _ => true
  | _ => false
  end.

Definition is_conn_close (e : entry) : bool :=
  match e with
  | Ext ConnClose _ => true
  | _ => false
  end.

(** [commit] called on the connection object. *)
Definition is_conn_commit (e : entry) : bool :=
  match e with
  | Ext ConnCommit _ => true
  | _ => false
  end.

(** A statement reaches the server. *)
Definition is_statement (e : entry) : bool :=
  match e with
  | Ext (CurExecute _) _ | Ext (CurCopyExpert _ _) _ => true
  | _ => false
  end.

(** Rows that the COPY calls of a trace append.  PostgreSQL's
    [COPY ... FROM stdin WITH CSV HEADER] skips the first line of the
    stream and stores one row per following line; a call that raised
    stores none. *)
Fixpoint rows_copied (tr : list entry) : nat :=
  match tr with
  | [] => 0
  | Ext (CurCopyExpert _ data) None :: rest => (length data - 1) + rows_copied rest
  | _ :: rest => rows_copied rest
  end.

(** The entries of the start of a run, before the connection is asked for. *)
Definition is_startup (e : entry) : bool :=
  match e with
  | Log INFO AppStarted | Log ERROR ConfigFailed => true
  | Ext (OpenYaml _) _ | Ext (Glob _ _) _ => true
  | _ => false
  end.

(** The entries of the work done over an open connection: what
    [import_file_to_database] can append without a statement going
    through, and the two closing log records of [run]. *)
Definition is_job (e : entry) : bool :=
  match e with
  | Log INFO (Importing _ _) | Log ERROR (ImportFailed _ _) => true
  | Log INFO ImportComplete | Log ERROR RunFailed => true
  | Ext ConnCursor _ | Ext CurClose _ => true
  | _ => false
  end.

(** The four ways a run can go: it dies during start-up; the lookup of
    [config['db']] fails; [connect] raises; or the connection is opened,
    the files are gone through and the connection is closed. *)
Definition run_outcome (out : result unit * list entry) : Prop :=
  (exists e pre, out = (Raise e, pre) /\ forallb is_startup pre = true)
  \/ (exists pre,
        out = (Ok tt, pre ++ [Log ERROR RunFailed])%list
        /\ forallb is_startup pre = true)
  \/ (exists pre params e,
        forallb is_startup pre = true
        /\ out =
           (if is_Exception e then Ok tt else Raise e,
            pre ++ Ext (Connect params) (Some e)
                :: (if is_Exception e then [Log ERROR RunFailed] else []))%list)
  \/ (exists pre params mid o r,
        forallb is_startup pre = true /\ forallb is_job mid = true
        /\ out =
           (r, pre ++ Ext (Connect params) None :: mid ++ [Ext ConnClose o])%list).

(** [connect] raised an exception that [except Exception] catches. *)
Definition connect_raised (e : entry) : bool :=
  match e with
  | Ext (Connect _) (Some ex) => is_Exception ex
  | _ => false
  end.

(** [connect] returned a connection. *)
Definition connect_returned (e : entry) : bool :=
  match e with
  | Ext (Connect _) None => true
  | _ => false
  end.

(** A directory path from which [glob] yields nothing, without raising:
    it is missing, not a directory, a directory whose listing is denied,
    or it holds no name that matches. *)
Definition nothing_to_list (node : fsnode) (pattern : string) : bool :=
  match node with
  | Directory true entries => forallb (fun n => negb (fnmatch pattern n)) entries
  | Inaccessible => false
  | _ => true
  end.

(** [m] only appends to the trace, and every entry it appends satisfies [P]. *)
Definition emits {A} (P : entry -> bool) (m : M A) : Prop :=
  forall w tr, exists added,
    snd (m w tr) = (tr ++ added)%list /\ forallb P added = true.

(** ** Worlds used as concrete inputs *)

Definition config_yml : pyval :=
  PDict [ ("target_path", PStr "/data");
          ("db", PDict [ ("host", PStr "localhost"); ("port", PInt 5432);
                         ("dbname", PStr "osm"); ("user", PStr "importer") ]) ].

Definition shops_csv : list string :=
  [ "osm_id,area,lon,lat,tags,osm_type,p_tag_value,city,postcode,address,street,has_way,shop_type,derived_shared_area,derived_way_area,parent_way,shared_divisor,area_sq_foot";
    "1,10.5,-0.12,51.5,,node,,London,N1,,,false,bakery,,,,,113.02";
    "2,20.0,-0.13,51.6,,node,,London,N2,,,false,butcher,,,,,215.28";
    "3,30.0,-0.14,51.7,,way,,London,N3,,,true,florist,,,,,322.92" ].

(** A healthy installation: [./config.yml] parses, [/data] holds two CSV
    files and a text file, every file opens, and the database accepts
    every call. *)
Definition healthy : World :=
  {| yaml_file := fun p =>
       if String.eqb p "./config.yml" then Ok config_yml else Raise OSError;
     fs := fun d =>
       if String.eqb d "/data"
       then Directory true ["shops.csv"; "readme.txt"; "roads.csv"]
       else Missing;
     csv_file := fun _ => Ok shops_csv;
     db := fun _ _ => None |}.

(** As [healthy], but the connection is lost after [connect]: every
    [conn.cursor()] raises psycopg2's InterfaceError. *)
Definition connection_lost : World :=
  {| yaml_file := yaml_file healthy;
     fs := fs healthy;
     csv_file := csv_file healthy;
     db := fun _ c =>
       match c with
       | ConnCursor => Some Psycopg2Error
       | _ => None
       end |}.

(** As [healthy], but the server refuses the connection. *)
Definition server_down : World :=
  {| yaml_file := yaml_file healthy;
     fs := fs healthy;
     csv_file := csv_file healthy;
     db := fun _ c =>
       match c with
       | Connect _ => Some Psycopg2Error
       | _ => None
       end |}.

(** As [healthy], but the configured directory does not exist. *)
Definition no_directory : World :=
  {| yaml_file := yaml_file healthy;
     fs := fun _ => Missing;
     csv_file := csv_file healthy;
     db := db healthy |}.

Definition shops : Path := mkPath "/data" "shops.csv".
Definition roads : Path := mkPath "/data" "roads.csv".

(** As [healthy], but the configured path is a regular file. *)
Definition target_is_a_file : World :=
  {| yaml_file := yaml_file healthy;
     fs := fun _ => RegularFile;
     csv_file := csv_file healthy;
     db := db healthy |}.

(** As [healthy], but the listing of [/data] is denied to the process. *)
Definition listing_denied : World :=
  {| yaml_file := yaml_file healthy;
     fs := fun d =>
       if String.eqb d "/data" then Directory false ["shops.csv"; "roads.csv"]
       else Missing;
     csv_file := csv_file healthy;
     db := db healthy |}.

(** As [healthy], but [/data] lies below a directory that the process
    may not search: [stat] on it fails with EACCES. *)
Definition unsearchable : World :=
  {| yaml_file := yaml_file healthy;
     fs := fun _ => Inaccessible;
     csv_file := csv_file healthy;
     db := db healthy |}.

(** ** run.py over any driver *)



















(** ** Further observations and inputs *)

(** [count P tr]: how many entries of the trace satisfy [P]. *)
Definition count (P : entry -> bool) (tr : list entry) : nat :=
  length (filter P tr).

(** [conn.cursor()] returned a cursor. *)
Definition cursor_opened (e : entry) : bool :=
  match e with
  | Ext ConnCursor None => true
  | _ => false
  end.

(** [close] was called on a cursor. *)
Definition cursor_closed (e : entry) : bool :=
  match e with
  | Ext CurClose _ => true
  | _ => false
  end.

(** A data file was opened. *)
Definition is_open_file (e : entry) : bool :=
  match e with
  | Ext (OpenFile _) _ => true
  | _ => false
  end.

(** The world raises nothing but subclasses of [Exception] from its
    database calls (no KeyboardInterrupt arrives during one). *)
Definition only_Exceptions (w : World) : Prop :=
  forall h c e, db w h c = Some e -> is_Exception e = true.

(** As [healthy], with a configuration that has no [target_path] key. *)
Definition no_target_path : World :=
  {| yaml_file := fun _ => Ok (PDict [("db", PDict [("host", PStr "localhost")])]);
     fs := fs healthy;
     csv_file := csv_file healthy;
     db := db healthy |}.

(** As [healthy], with a configuration whose [target_path] is a number. *)
Definition numeric_target_path : World :=
  {| yaml_file := fun _ => Ok (PDict [("target_path", PInt 5);
                                      ("db", PDict [("host", PStr "localhost")])]);
     fs := fs healthy;
     csv_file := csv_file healthy;
     db := db healthy |}.

(** As [healthy], with a configuration that has no [db] key. *)
Definition no_db_key : World :=
  {| yaml_file := fun _ => Ok (PDict [("target_path", PStr "/data")]);
     fs := fs healthy;
     csv_file := csv_file healthy;
     db := db healthy |}.

(** As [healthy], but [/data] holds no CSV file. *)
Definition no_csv_files : World :=
  {| yaml_file := yaml_file healthy;
     fs := fun d =>
       if String.eqb d "/data" then Directory true ["readme.txt"; "shops.CSV"]
       else Missing;
     csv_file := csv_file healthy;
     db := db healthy |}.

(** As [healthy], but the process is interrupted while the configuration
    file is read. *)
Definition interrupted : World :=
  {| yaml_file := fun _ => Raise KeyboardInterrupt;
     fs := fs healthy;
     csv_file := csv_file healthy;
     db := db healthy |}.

(** What the trace shows for one file when the cursor can be obtained
    and closed: the file is announced, a cursor is obtained, the [with]
    block closes it, the failure is logged, and [finally] closes it
    again. *)
Definition failed_import (file_path : Path) : list entry :=
  [ Log INFO (Importing file_path (stem file_path));
    Ext ConnCursor None;
    Ext CurClose None;
    Log ERROR (ImportFailed file_path (stem file_path));
    Ext CurClose None ].

(** * Properties *)

(** ** The libraries on small inputs *)

Example stem_shops : stem shops = "shops".
Proof. reflexivity. Qed.

Example stem_two_dots : stem (mkPath "/data" "a.b.csv") = "a.b".
Proof. reflexivity. Qed.

Example stem_hidden : stem (mkPath "/data" ".csv") = ".csv".
Proof. reflexivity. Qed.

Example fnmatch_csv :
  map (fnmatch "*.csv") ["shops.csv"; "notes.txt"; ".csv"; "csv"; "a.CSV"]
  = [true; false; true; false; false].
Proof. reflexivity. Qed.

Example glob_data :
  glob (fs healthy "/data") "/data" "*.csv" = Ok [shops; roads].
Proof. reflexivity. Qed.

Example parse_fields :
  parse "select {0} from {t} where {{x}}"
  = ([("select ", Some "0"); (" from ", Some "t"); (" where {", None);
      ("x}", None)], None).
Proof. reflexivity. Qed.

Example format_identifier :
  format "select * from {t}" [] [("t", ArgComposable (Identifier "shops"))]
  = Ok (Composed [SQL "select * from "; Identifier "shops"]).
Proof. reflexivity. Qed.

Example format_missing_key :
  format "select * from {t}" [] [("u", ArgComposable (Identifier "shops"))]
  = Raise KeyError.
Proof. reflexivity. Qed.

Example cursor_has_no_commit :
  has_attr cursor_attrs "commit" = false /\ has_attr connection_attrs "commit" = true.
Proof. split; reflexivity. Qed.

(** ** Entries appended by the combinators *)

Section Emits.

Variable P : entry -> bool.

Lemma emits_ret {A} (a : A) : emits P (ret a).
Proof. intros w tr. exists []. simpl. now rewrite app_nil_r. Qed.

Lemma emits_raise {A} (e : exn) : emits P (@raise A e).
Proof. intros w tr. exists []. simpl. now rewrite app_nil_r. Qed.


Lemma emits_one {A} (m : M A) (f : World -> list entry -> entry) :
  (forall w tr, snd (m w tr) = record (f w tr) tr) ->
  (forall w tr, P (f w tr) = true) ->
  emits P m.
Proof.
  intros Hm HP w tr. exists [f w tr]. split; [apply Hm|].
  simpl. now rewrite HP.
Qed.

Lemma emits_logging lvl msg : P (Log lvl msg) = true -> emits P (logging lvl msg).
Proof.
  intros H. apply (emits_one (logging lvl msg) (fun _ _ => Log lvl msg)); auto.
Qed.

Lemma emits_db_call c : (forall o, P (Ext c o) = true) -> emits P (db_call c).
Proof.
  intros H.
  apply (emits_one (db_call c) (fun w tr => Ext c (db w tr c))); auto.
Qed.

Lemma emits_bind {A B} (m : M A) (k : A -> M B) :
  emits P m -> (forall a, emits P (k a)) -> emits P (bind m k).
Proof.
  intros Hm Hk w tr. unfold bind.
  destruct (Hm w tr) as (a1 & E1 & F1).
  destruct (m w tr) as [[a|e] tr1]; simpl in E1; subst tr1.
  - destruct (Hk a w (tr ++ a1)%list) as (a2 & E2 & F2).
    exists (a1 ++ a2)%list. rewrite E2, app_assoc, forallb_app, F1, F2. auto.
  - exists a1. auto.
Qed.

Lemma emits_try_except {A} (body handler : M A) :
  emits P body -> emits P handler -> emits P (try_except_Exception body handler).
Proof.
  intros Hb Hh w tr. unfold try_except_Exception.
  destruct (Hb w tr) as (a1 & E1 & F1).
  destruct (body w tr) as [[a|e] tr1]; simpl in E1; subst tr1.
  - exists a1. auto.
  - destruct (is_Exception e).
    + destruct (Hh w (tr ++ a1)%list) as (a2 & E2 & F2).
      exists (a1 ++ a2)%list. rewrite E2, app_assoc, forallb_app, F1, F2. auto.
    + exists a1. auto.
Qed.

Lemma emits_try_finally {A} (body : M A) (fin : M unit) :
  emits P body -> emits P fin -> emits P (try_finally body fin).
Proof.
  intros Hb Hf w tr. unfold try_finally.
  destruct (Hb w tr) as (a1 & E1 & F1).
  destruct (body w tr) as [r tr1]; simpl in E1; subst tr1.
  destruct (Hf w (tr ++ a1)%list) as (a2 & E2 & F2).
  exists (a1 ++ a2)%list.
  destruct (fin w (tr ++ a1)%list) as [[u|e] tr2]; simpl in *; subst tr2;
    rewrite app_assoc, forallb_app, F1, F2; auto.
Qed.

Lemma emits_try_assign {X A} (acquire : M X) (body : X -> M A) (handler : M A)
  (fin : option X -> M unit) :
  emits P acquire -> (forall x, emits P (body x)) -> emits P handler ->
  (forall x, emits P (fin x)) ->
  emits P (try_assign_except_finally acquire body handler fin).
Proof.
  intros Ha Hb Hh Hf w tr. unfold try_assign_except_finally.
  destruct (Ha w tr) as (a1 & E1 & F1).
  destruct (acquire w tr) as [[x|e] tr1]; simpl in E1; subst tr1.
  - destruct (emits_try_finally _ _ (emits_try_except _ _ (Hb x) Hh) (Hf (Some x))
                w (tr ++ a1)%list) as (a2 & E2 & F2).
    exists (a1 ++ a2)%list. rewrite E2, app_assoc, forallb_app, F1, F2. auto.
  - destruct (emits_try_finally _ _
                (emits_try_except _ _ (emits_raise e) Hh) (Hf None)
                w (tr ++ a1)%list) as (a2 & E2 & F2).
    exists (a1 ++ a2)%list. rewrite E2, app_assoc, forallb_app, F1, F2. auto.
Qed.

Lemma emits_for_each {X} (xs : list X) (body : X -> M unit) :
  (forall x, emits P (body x)) -> emits P (for_each xs body).
Proof.
  intros Hb. induction xs as [|x rest IH]; simpl.
  - apply emits_ret.
  - apply emits_bind; auto.
Qed.

Lemma emits_call_method attrs attr c :
  (forall o, P (Ext c o) = true) -> emits P (call_method attrs attr c).
Proof.
  intros H. unfold call_method. destruct (has_attr attrs attr).
  - now apply emits_db_call.
  - apply emits_raise.
Qed.


End Emits.


(** ** The statements of run.py *)

(** [SQL.format] refuses the raw [str] that the script passes for the
    table name, whatever the file is called. *)
Lemma format_str_table_name (template : string) (file_name : string) :
  template = CREATE_TABLE_SQL \/ template = COPY_SQL ->
  format template [] [("table_name", ArgStr file_name)] = Raise TypeError.
Proof. intros [-> | ->]; reflexivity. Qed.

(** With an [Identifier] the same call builds the statement around the
    quoted name. *)
Lemma format_identifier_table_name (file_name : string) :
  exists pre post,
    format CREATE_TABLE_SQL [] [("table_name", ArgComposable (Identifier file_name))]
    = Ok (Composed [SQL pre; Identifier file_name; SQL post])
    /\ create_table_columns post = Some TableSchema.
Proof. eexists. eexists. split; reflexivity. Qed.

(** The suite under the cursor stops at line 121, before anything is sent. *)
Lemma import_suite_raises file_path file_name cur w tr :
  import_suite file_path file_name cur w tr = (Raise TypeError, tr).
Proof.
  unfold import_suite, bind, lift.
  now rewrite (format_str_table_name CREATE_TABLE_SQL) by auto.
Qed.

Lemma emits_import_suite P file_path file_name cur :
  emits P (import_suite file_path file_name cur).
Proof.
  intros w tr. exists []. rewrite import_suite_raises. simpl.
  now rewrite app_nil_r.
Qed.

Lemma emits_import_file file_path conn :
  emits is_job (import_file_to_database file_path conn).
Proof.
  unfold import_file_to_database. apply emits_try_assign.
  - apply emits_bind; [now apply emits_logging|]. intros _.
    unfold conn_cursor. apply emits_bind; [|intros; apply emits_ret].
    now apply emits_call_method.
  - intros cur. apply emits_try_finally; [apply emits_import_suite|].
    now apply emits_call_method.
  - now apply emits_logging.
  - intros [c|]; [now apply emits_call_method | apply emits_raise].
Qed.

(** [import_file_to_database], executed symbolically. *)
Lemma import_file_cases file_path conn w tr :
  let file_name := stem file_path in
  let failed := Log ERROR (ImportFailed file_path file_name) in
  let tr1 := record (Log INFO (Importing file_path file_name)) tr in
  import_file_to_database file_path conn w tr =
  match db w tr1 ConnCursor with
  | Some e =>
      let tr2 := record (Ext ConnCursor (Some e)) tr1 in
      (Raise UnboundLocalError, if is_Exception e then record failed tr2 else tr2)
  | None =>
      let tr2 := record (Ext ConnCursor None) tr1 in
      let exit := db w tr2 CurClose in
      let tr3 := record (Ext CurClose exit) tr2 in
      let e := match exit with Some e' => e' | None => TypeError end in
      let tr4 := if is_Exception e then record failed tr3 else tr3 in
      let close := db w tr4 CurClose in
      (match close with
       | Some e' => Raise e'
       | None => if is_Exception e then Ok tt else Raise e
       end, record (Ext CurClose close) tr4)
  end.
Proof.
  cbv zeta.
  unfold import_file_to_database, try_assign_except_finally, conn_cursor,
    connection_method, cursor_method, call_method.
  change (has_attr connection_attrs "cursor") with true.
  change (has_attr cursor_attrs "close") with true.
  cbn iota.
  unfold try_finally, try_except_Exception.
  unfold bind, logging, ret, raise, db_call.
  destruct (db w _ ConnCursor) as [e|].
  - destruct (is_Exception e); reflexivity.
  - rewrite import_suite_raises.
    destruct (db w _ CurClose) as [e1|].
    + destruct (is_Exception e1); destruct (db w _ CurClose); reflexivity.
    + cbn [is_Exception]. destruct (db w _ CurClose); reflexivity.
Qed.

(** ** The shape of a run *)

Lemma emits_read_yaml_config config_path :
  emits is_startup (read_yaml_config config_path).
Proof.
  unfold read_yaml_config. apply emits_try_except.
  - apply (emits_one is_startup (open_yaml config_path)
             (fun w _ => Ext (OpenYaml config_path)
                             (outcome (yaml_file w config_path)))); auto.
  - apply emits_bind; [now apply emits_logging | intros; apply emits_ret].
Qed.

Lemma emits_list_files search_folder :
  emits is_startup (list_files search_folder).
Proof.
  destruct search_folder; simpl; try apply emits_raise.
  apply (emits_one is_startup (path_glob s "*.csv")
           (fun w _ => Ext (Glob s "*.csv")
                           (outcome (glob (fs w s) s "*.csv")))); auto.
Qed.

(** [connect]: the lookup of [config['db']] fails, or the driver is
    called once. *)
Lemma connect_cases config w tr :
  (exists e, is_Exception e = true /\ connect config w tr = (Raise e, tr))
  \/ (exists params,
        connect config w tr =
        (match db w tr (Connect params) with
         | Some e => Raise e
         | None => Ok TheConnection
         end, record (Ext (Connect params) (db w tr (Connect params))) tr)).
Proof.
  unfold connect, bind, lift.
  destruct (subscript config "db") as [[ | | |params]|e] eqn:E;
    try (left; exists TypeError; split; reflexivity).
  - right. exists params. unfold db_call, ret.
    destruct (db w tr (Connect params)); reflexivity.
  - left. exists e. split; [|reflexivity].
    destruct config; simpl in E; try (inversion E; reflexivity).
    destruct (dict_get items "db"); inversion E; reflexivity.
Qed.

Lemma emits_jobs files conn :
  emits is_job
    (try_except_Exception
       (for_each files (fun file => import_file_to_database file conn) ;;
        logging INFO ImportComplete)
       (logging ERROR RunFailed)).
Proof.
  apply emits_try_except; [|now apply emits_logging].
  apply emits_bind; [|intros; now apply emits_logging].
  apply emits_for_each. intros f. apply emits_import_file.
Qed.

Lemma run_shape config w : run_outcome (run config w []).
Proof.
  unfold run. unfold bind at 1. unfold logging at 1. unfold record at 1.
  cbn [app].
  unfold bind at 1.
  destruct (emits_read_yaml_config config w [Log INFO AppStarted]) as (a1 & E1 & F1).
  destruct (read_yaml_config config w [Log INFO AppStarted]) as [[cfg|e] tr1];
    simpl in E1; subst tr1.
  2:{ left. exists e, (Log INFO AppStarted :: a1). split; auto. }
  unfold bind at 1. unfold lift at 1.
  destruct (subscript cfg "target_path") as [target|e].
  2:{ left. exists e, (Log INFO AppStarted :: a1). split; auto. }
  unfold bind at 1.
  destruct (emits_list_files target w (Log INFO AppStarted :: a1))
    as (a2 & E2 & F2).
  destruct (list_files target w (Log INFO AppStarted :: a1))
    as [[files|e] tr2]; simpl in E2; subst tr2.
  2:{ left. exists e, ((Log INFO AppStarted :: a1) ++ a2)%list. split; auto.
      rewrite forallb_app. simpl. simpl in F1. now rewrite F1, F2. }
  match goal with
  | |- run_outcome (try_assign_except_finally _ _ _ _ _ ?t) => set (pre := t)
  end.
  assert (Fpre : forallb is_startup pre = true).
  { unfold pre. cbn [forallb is_startup]. now rewrite forallb_app, F1, F2. }
  clearbody pre. unfold run_outcome. right.
  unfold try_assign_except_finally.
  destruct (connect_cases cfg w pre) as [(e & He & ->) | (params & ->)].
  - left. exists pre. split; auto.
    unfold try_finally, try_except_Exception, raise, logging, ret.
    now rewrite He.
  - right. unfold record at 1. destruct (db w pre (Connect params)) as [e|].
    + left. exists pre, params, e. split; auto.
      unfold try_finally, try_except_Exception, raise, logging, ret, record.
      destruct (is_Exception e); rewrite <- ?app_assoc; reflexivity.
    + right. unfold try_finally.
      destruct (emits_jobs files TheConnection w (pre ++ [Ext (Connect params) None])%list)
        as (mid & E3 & F3).
      destruct (try_except_Exception _ _ w _) as [r tr3]. simpl in E3. subst tr3.
      unfold connection_method, call_method.
      change (has_attr connection_attrs "close") with true. cbn iota.
      unfold db_call, record.
      set (o := db w _ ConnClose).
      exists pre, params, mid, o.
      exists (match o with Some e => Raise e | None => r end).
      split; auto. split; auto.
      destruct o; rewrite <- !app_assoc; reflexivity.
Qed.

(** ** Consequences of the shape *)

Lemma forallb_existsb_false (P Q : entry -> bool) (l : list entry) :
  (forall e, P e = true -> Q e = false) ->
  forallb P l = true -> existsb Q l = false.
Proof.
  intros H. induction l as [|x l IH]; simpl; auto.
  intros F. apply andb_true_iff in F as [Fx Fl]. now rewrite (H x Fx), IH.
Qed.

Lemma startup_no_connect_raised e : is_startup e = true -> connect_raised e = false.
Proof. destruct e as [[] []|[] []]; simpl; congruence. Qed.

Lemma startup_no_connect_returned e : is_startup e = true -> connect_returned e = false.
Proof. destruct e as [[] []|[] []]; simpl; congruence. Qed.

Lemma startup_no_file_activity e : is_startup e = true -> is_file_activity e = false.
Proof. destruct e as [[] []|[] []]; simpl; congruence. Qed.

Lemma startup_no_conn_close e : is_startup e = true -> is_conn_close e = false.
Proof. destruct e as [[] []|[] []]; simpl; congruence. Qed.

Lemma startup_no_conn_commit e : is_startup e = true -> is_conn_commit e = false.
Proof. destruct e as [[] []|[] []]; simpl; congruence. Qed.

Lemma startup_no_statement e : is_startup e = true -> is_statement e = false.
Proof. destruct e as [[] []|[] []]; simpl; congruence. Qed.

Lemma job_no_connect_raised e : is_job e = true -> connect_raised e = false.
Proof. destruct e as [[] []|[] []]; simpl; congruence. Qed.

Lemma job_no_connect_returned e : is_job e = true -> connect_returned e = false.
Proof. destruct e as [[] []|[] []]; simpl; congruence. Qed.

Lemma job_no_conn_close e : is_job e = true -> is_conn_close e = false.
Proof. destruct e as [[] []|[] []]; simpl; congruence. Qed.

Lemma job_no_conn_commit e : is_job e = true -> is_conn_commit e = false.
Proof. destruct e as [[] []|[] []]; simpl; congruence. Qed.

Lemma job_no_statement e : is_job e = true -> is_statement e = false.
Proof. destruct e as [[] []|[] []]; simpl; congruence. Qed.

Create HintDb shape.

#[local] Hint Resolve startup_no_connect_raised startup_no_connect_returned
  startup_no_file_activity startup_no_conn_close startup_no_conn_commit
  startup_no_statement job_no_connect_raised job_no_connect_returned
  job_no_conn_close job_no_conn_commit job_no_statement : shape.

(** Rewrites [existsb Q] over the pieces of a trace whose entries are
    known to be start-up or job entries. *)
Ltac absent :=
  repeat first [ rewrite existsb_app in * | progress cbn [existsb] in * ];
  repeat match goal with
    | F : forallb ?P ?l = true |- context [existsb ?Q ?l] =>
        rewrite (forallb_existsb_false P Q l) by (auto with shape)
    | F : forallb ?P ?l = true, H : context [existsb ?Q ?l] |- _ =>
        rewrite (forallb_existsb_false P Q l) in H by (auto with shape)
    end.

(** No statement ever reaches the server, and nothing is copied. *)
Lemma no_statement_sent config w :
  existsb is_statement (trace_of (run config w [])) = false.
Proof.
  destruct (run_shape config w)
    as [(e0 & pre & E & F) | [(pre & E & F) | [(pre & ps & e0 & F & E)
       | (pre & ps & mid & o & r & F & Fm & E)]]];
    rewrite E; cbn [trace_of snd]; absent; try reflexivity.
  destruct (is_Exception e0); reflexivity.
Qed.

Lemma rows_copied_no_statement tr :
  existsb is_statement tr = false -> rows_copied tr = 0.
Proof.
  induction tr as [|x tr IH]; simpl; auto.
  intros H. apply orb_false_iff in H as [Hx Ht].
  destruct x as [|[] []]; simpl in Hx; try discriminate; auto.
Qed.

Lemma nothing_copied config w : rows_copied (trace_of (run config w [])) = 0.
Proof. apply rows_copied_no_statement, no_statement_sent. Qed.

(** ** Failure of the connection (C7) *)

(** C7. In every run in which [connect] raises, the failure is logged by
    the handler of [run] (the ERROR record of line 61), the run ends
    without an exception, and no file is processed: no cursor is asked
    for, no file is opened, no statement is sent, and there is no
    connection to close. *)
Theorem connect_failure_is_fatal (config : string) (w : World) :
  existsb connect_raised (trace_of (run config w [])) = true ->
  fst (run config w []) = Ok tt
  /\ In (Log ERROR RunFailed) (trace_of (run config w []))
  /\ existsb is_file_activity (trace_of (run config w [])) = false
  /\ existsb is_conn_close (trace_of (run config w [])) = false.
Proof.
  destruct (run_shape config w)
    as [(e0 & pre & E & F) | [(pre & E & F) | [(pre & ps & e0 & F & E)
       | (pre & ps & mid & o & r & F & Fm & E)]]];
    rewrite E; cbn [trace_of snd fst]; intros H; absent;
    cbn [connect_raised orb] in H; try discriminate H.
  - destruct (is_Exception e0) eqn:Ex.
    + repeat split; auto.
      apply in_or_app. right. simpl. auto.
    + discriminate H.
Qed.

Lemma connect_failure_is_fatal_witness :
  existsb connect_raised (trace_of (run "./config.yml" server_down [])) = true
  /\ fst (run "./config.yml" server_down []) = Ok tt
  /\ In (Log ERROR RunFailed) (trace_of (run "./config.yml" server_down []))
  /\ existsb is_file_activity (trace_of (run "./config.yml" server_down [])) = false
  /\ existsb is_conn_close (trace_of (run "./config.yml" server_down [])) = false.
Proof.
  split.
  - reflexivity.
  - apply (connect_failure_is_fatal "./config.yml" server_down). reflexivity.
Defined.

(** ** Release of the connection (C8) *)

(** C8. In every run in which [connect] returned a connection, whatever
    happens afterwards (all files fine, some failed, an exception leaving
    the loop), the last action of the run is [close] on the connection,
    and it is the only one. *)
Theorem connection_always_closed (config : string) (w : World) :
  existsb connect_returned (trace_of (run config w [])) = true ->
  exists before o,
    trace_of (run config w []) = (before ++ [Ext ConnClose o])%list
    /\ existsb is_conn_close before = false.
Proof.
  destruct (run_shape config w)
    as [(e0 & pre & E & F) | [(pre & E & F) | [(pre & ps & e0 & F & E)
       | (pre & ps & mid & o & r & F & Fm & E)]]];
    rewrite E; cbn [trace_of snd fst]; intros H; absent;
    cbn [connect_returned orb] in H; try discriminate H.
  - destruct (is_Exception e0); discriminate H.
  - exists (pre ++ Ext (Connect ps) None :: mid)%list, o. split.
    + now rewrite <- app_assoc.
    + absent. reflexivity.
Qed.

Lemma connection_always_closed_witness :
  existsb connect_returned (trace_of (run "./config.yml" connection_lost [])) = true
  /\ exists before o,
       trace_of (run "./config.yml" connection_lost []) = (before ++ [Ext ConnClose o])%list
       /\ existsb is_conn_close before = false.
Proof.
  split.
  - reflexivity.
  - apply (connection_always_closed "./config.yml" connection_lost). reflexivity.
Defined.

(** ** Unreadable configuration (C9) *)

(** C9. When the configuration file cannot be opened or parsed,
    [read_yaml_config] logs the failure and returns [None]; subscripting
    it at line 49 raises TypeError outside any [try], so the run ends
    there: nothing is listed, no connection is asked for, no file is
    processed. *)
Theorem unreadable_config_is_fatal (config : string) (w : World) (e : exn) :
  yaml_file w config = Raise e ->
  is_Exception e = true ->
  run config w [] =
    (Raise TypeError,
     [Log INFO AppStarted; Ext (OpenYaml config) (Some e); Log ERROR ConfigFailed])
  /\ existsb is_connect (trace_of (run config w [])) = false
  /\ existsb is_file_activity (trace_of (run config w [])) = false.
Proof.
  intros Hy He.
  assert (E : run config w [] =
    (Raise TypeError,
     [Log INFO AppStarted; Ext (OpenYaml config) (Some e); Log ERROR ConfigFailed])).
  { unfold run, bind, logging, read_yaml_config, try_except_Exception, open_yaml.
    rewrite Hy. cbn [outcome]. rewrite He. reflexivity. }
  rewrite E. repeat split; reflexivity.
Qed.

Lemma unreadable_config_is_fatal_witness :
  (yaml_file healthy "./missing.yml" = Raise OSError /\ is_Exception OSError = true)
  /\ run "./missing.yml" healthy [] =
       (Raise TypeError,
        [Log INFO AppStarted; Ext (OpenYaml "./missing.yml") (Some OSError);
         Log ERROR ConfigFailed])
  /\ existsb is_connect (trace_of (run "./missing.yml" healthy [])) = false
  /\ existsb is_file_activity (trace_of (run "./missing.yml" healthy [])) = false.
Proof.
  split.
  - split; reflexivity.
  - apply (unreadable_config_is_fatal "./missing.yml" healthy OSError); reflexivity.
Defined.

(** ** No commit on the connection (C10) *)

(** C10. No run ever calls [commit] on the connection: the only [commit]
    of the script is looked up on the cursor, which has no such
    attribute, and no statement reaches the server before the connection
    is closed. *)
Theorem commit_never_called_on_connection (config : string) (w : World) :
  existsb is_conn_commit (trace_of (run config w [])) = false
  /\ has_attr cursor_attrs "commit" = false
  /\ (forall cur w' tr,
        cursor_method cur "commit" CurCommit w' tr = (Raise AttributeError, tr)).
Proof.
  split; [|split; [reflexivity | intros; reflexivity]].
  destruct (run_shape config w)
    as [(e0 & pre & E & F) | [(pre & E & F) | [(pre & ps & e0 & F & E)
       | (pre & ps & mid & o & r & F & Fm & E)]]];
    rewrite E; cbn [trace_of snd]; absent; try reflexivity.
  destruct (is_Exception e0); reflexivity.
Qed.

(** ** The directory scanner (C6) *)

Lemma filter_none {A} (f : A -> bool) (l : list A) :
  forallb (fun x => negb (f x)) l = true -> filter f l = [].
Proof.
  induction l as [|x l IH]; simpl; auto.
  intros H. apply andb_true_iff in H as [Hx Hl].
  destruct (f x); [discriminate|auto].
Qed.

Lemma glob_nothing node dir pattern :
  nothing_to_list node pattern = true -> glob node dir pattern = Ok [].
Proof.
  destruct node as [| |[] entries|]; simpl; auto; [|discriminate].
  intros H. now rewrite filter_none.
Qed.

(** [glob] raises for one state of the path only. *)
Lemma glob_raises node dir pattern e :
  glob node dir pattern = Raise e -> node = Inaccessible /\ e = OSError.
Proof.
  destruct node as [| |[] entries|]; simpl; intros H; inversion H; auto.
Qed.

(** A run whose configuration loads and names a directory: the outcome
    of the listing decides whether the [try] of line 51 is reached. *)
Lemma run_listing config cfg directory w :
  yaml_file w config = Ok cfg ->
  subscript cfg "target_path" = Ok (PStr directory) ->
  run config w [] =
    match glob (fs w directory) directory "*.csv" with
    | Ok files =>
        try_assign_except_finally
          (connect cfg)
          (fun db_conn =>
             for_each files (fun file => import_file_to_database file db_conn) ;;
             logging INFO ImportComplete)
          (logging ERROR RunFailed)
          (fun db_conn =>
             match db_conn with
             | Some c => connection_method c "close" ConnClose
             | None => ret tt
             end)
          w [Log INFO AppStarted; Ext (OpenYaml config) None;
             Ext (Glob directory "*.csv") None]
    | Raise e =>
        (Raise e, [Log INFO AppStarted; Ext (OpenYaml config) None;
                   Ext (Glob directory "*.csv") (Some e)])
    end.
Proof.
  intros Hy Ht.
  unfold run. unfold bind at 1. unfold logging at 1.
  unfold bind at 1. unfold read_yaml_config, try_except_Exception, open_yaml.
  rewrite Hy. unfold bind at 1, lift at 1. rewrite Ht.
  unfold bind at 1. unfold list_files, path_glob.
  destruct (glob (fs w directory) directory "*.csv"); reflexivity.
Qed.

(** C6, as the code has it.  For a directory path from which the pattern
    yields nothing -- the directory has no matching file, or the path is
    missing, is not a directory, or is a directory whose listing is
    denied -- [list_files] returns the empty list without raising, and a
    run with a readable configuration goes on to the connection with no
    file to import.  [list_files] raises in one case only: the path
    cannot be examined at all; the OSError of the file system then leaves
    [run] at line 49, outside the [try], before any connection. *)
Theorem list_files_contract (config directory : string) (cfg : pyval)
  (w : World) (tr : list entry) :
  yaml_file w config = Ok cfg ->
  subscript cfg "target_path" = Ok (PStr directory) ->
  (nothing_to_list (fs w directory) "*.csv" = true ->
   list_files (PStr directory) w tr
     = (Ok [], record (Ext (Glob directory "*.csv") None) tr)
   /\ run config w [] =
        try_assign_except_finally
          (connect cfg)
          (fun _ => ret tt ;; logging INFO ImportComplete)
          (logging ERROR RunFailed)
          (fun db_conn =>
             match db_conn with
             | Some c => connection_method c "close" ConnClose
             | None => ret tt
             end)
          w [Log INFO AppStarted; Ext (OpenYaml config) None;
             Ext (Glob directory "*.csv") None])
  /\ (fs w directory = Inaccessible ->
      list_files (PStr directory) w tr
        = (Raise OSError, record (Ext (Glob directory "*.csv") (Some OSError)) tr)
      /\ run config w [] =
           (Raise OSError,
            [Log INFO AppStarted; Ext (OpenYaml config) None;
             Ext (Glob directory "*.csv") (Some OSError)]))
  /\ (forall e, fst (list_files (PStr directory) w tr) = Raise e ->
                fs w directory = Inaccessible /\ e = OSError).
Proof.
  intros Hy Ht. split; [|split].
  - intros Hn. split.
    + unfold list_files, path_glob. now rewrite glob_nothing.
    + rewrite (run_listing config cfg directory w Hy Ht).
      now rewrite glob_nothing.
  - intros Hi. split.
    + unfold list_files, path_glob. now rewrite Hi.
    + rewrite (run_listing config cfg directory w Hy Ht). now rewrite Hi.
  - intros e. unfold list_files, path_glob. cbn [fst]. apply glob_raises.
Qed.

Lemma list_files_contract_witness :
  ((yaml_file no_directory "./config.yml" = Ok config_yml
    /\ subscript config_yml "target_path" = Ok (PStr "/data")
    /\ nothing_to_list (fs no_directory "/data") "*.csv" = true)
   /\ list_files (PStr "/data") no_directory []
        = (Ok [], record (Ext (Glob "/data" "*.csv") None) [])
   /\ run "./config.yml" no_directory [] =
        try_assign_except_finally
          (connect config_yml)
          (fun _ => ret tt ;; logging INFO ImportComplete)
          (logging ERROR RunFailed)
          (fun db_conn =>
             match db_conn with
             | Some c => connection_method c "close" ConnClose
             | None => ret tt
             end)
          no_directory [Log INFO AppStarted; Ext (OpenYaml "./config.yml") None;
                        Ext (Glob "/data" "*.csv") None])
  /\ ((yaml_file unsearchable "./config.yml" = Ok config_yml
       /\ subscript config_yml "target_path" = Ok (PStr "/data")
       /\ fs unsearchable "/data" = Inaccessible)
      /\ list_files (PStr "/data") unsearchable []
           = (Raise OSError, record (Ext (Glob "/data" "*.csv") (Some OSError)) [])
      /\ run "./config.yml" unsearchable [] =
           (Raise OSError,
            [Log INFO AppStarted; Ext (OpenYaml "./config.yml") None;
             Ext (Glob "/data" "*.csv") (Some OSError)])).
Proof.
  split; split.
  - repeat split; reflexivity.
  - apply (list_files_contract "./config.yml" "/data" config_yml no_directory []);
      reflexivity.
  - repeat split; reflexivity.
  - apply (list_files_contract "./config.yml" "/data" config_yml unsearchable []);
      reflexivity.
Defined.

(** C6 as stated fails on a missing directory, where it promises a
    DiscoveryError that ends the run: the configured path does not exist,
    [list_files] returns the empty list, and the run is not aborted: it
    connects, records its completion and closes the connection.  The
    same holds when the path is a regular file and when it is a
    directory whose listing is denied. *)
Lemma missing_directory_is_not_fatal :
  fs no_directory "/data" = Missing
  /\ fst (list_files (PStr "/data") no_directory []) = Ok []
  /\ (forall e, fst (list_files (PStr "/data") no_directory []) <> Raise e)
  /\ run "./config.yml" no_directory [] =
       (Ok tt,
        [ Log INFO AppStarted;
          Ext (OpenYaml "./config.yml") None;
          Ext (Glob "/data" "*.csv") None;
          Ext (Connect [ ("host", PStr "localhost"); ("port", PInt 5432);
                         ("dbname", PStr "osm"); ("user", PStr "importer") ]) None;
          Log INFO ImportComplete;
          Ext ConnClose None ])
  /\ (fs target_is_a_file "/data" = RegularFile
      /\ fst (list_files (PStr "/data") target_is_a_file []) = Ok []
      /\ fst (run "./config.yml" target_is_a_file []) = Ok tt)
  /\ (fs listing_denied "/data" = Directory false ["shops.csv"; "roads.csv"]
      /\ fst (list_files (PStr "/data") listing_denied []) = Ok []
      /\ fst (run "./config.yml" listing_denied []) = Ok tt).
Proof.
  split; [reflexivity|]. split; [reflexivity|].
  split; [intros e H; discriminate H|].
  split; [reflexivity|]. split; repeat split; reflexivity.
Qed.

(** ** Isolation of a file's failure (C1) *)

Lemma attempted_app file tr added :
  attempted file (tr ++ added) = attempted file tr || attempted file added.
Proof. unfold attempted. apply existsb_app. Qed.

Lemma Path_eqb_refl p : Path_eqb p p = true.
Proof. unfold Path_eqb. now rewrite !String.eqb_refl. Qed.

(** When the cursor can be obtained and closed, a file's failure stays
    with the file: it is logged and [import_file_to_database] returns. *)
Lemma import_file_contained file_path conn w tr :
  (forall h, db w h ConnCursor = None) ->
  (forall h, db w h CurClose = None) ->
  import_file_to_database file_path conn w tr =
    (Ok tt,
     tr ++ [ Log INFO (Importing file_path (stem file_path));
             Ext ConnCursor None; Ext CurClose None;
             Log ERROR (ImportFailed file_path (stem file_path));
             Ext CurClose None ])%list.
Proof.
  intros Hc Hx. rewrite import_file_cases. cbv zeta.
  rewrite Hc, Hx. cbn iota. rewrite Hx. cbn iota.
  change (is_Exception TypeError) with true. cbn iota.
  unfold record. now rewrite <- !app_assoc.
Qed.

(** Under the same condition the loop of [run] takes up every file. *)
Lemma files_isolated_when_cursor_opens files conn w tr :
  (forall h, db w h ConnCursor = None) ->
  (forall h, db w h CurClose = None) ->
  fst (for_each files (fun f => import_file_to_database f conn) w tr) = Ok tt
  /\ forall f, In f files ->
       attempted f
         (snd (for_each files (fun f => import_file_to_database f conn) w tr))
       = true.
Proof.
  intros Hc Hx. revert tr. induction files as [|x rest IH]; intros tr.
  - split; [reflexivity | intros f []].
  - cbn [for_each]. unfold bind.
    rewrite (import_file_contained x conn w tr Hc Hx).
    destruct (IH (tr ++ [ Log INFO (Importing x (stem x));
                          Ext ConnCursor None; Ext CurClose None;
                          Log ERROR (ImportFailed x (stem x));
                          Ext CurClose None ])%list) as [R A].
    split; [exact R|]. intros f [<- | Hin]; [|now apply A].
    destruct (emits_for_each is_job rest
                (fun f => import_file_to_database f conn)
                (fun f => emits_import_file f conn) w
                (tr ++ [ Log INFO (Importing x (stem x));
                         Ext ConnCursor None; Ext CurClose None;
                         Log ERROR (ImportFailed x (stem x));
                         Ext CurClose None ])%list) as (added & E & _).
    rewrite E, !attempted_app. cbn [attempted existsb].
    rewrite Path_eqb_refl. cbn. now rewrite orb_true_r.
Qed.

(** When [conn.cursor()] raises, [cur] is unbound in the [finally] suite
    and the function leaves with UnboundLocalError. *)
Lemma cursor_failure_escapes file_path conn w tr e :
  db w (record (Log INFO (Importing file_path (stem file_path))) tr) ConnCursor
    = Some e ->
  fst (import_file_to_database file_path conn w tr) = Raise UnboundLocalError.
Proof. intros H. rewrite import_file_cases. cbv zeta. now rewrite H. Qed.

(** C1, at the input that breaks it.  The directory holds [shops.csv] and
    [roads.csv]; the connection is lost after [connect], so
    [conn.cursor()] raises for [shops.csv].  The handler logs the failure,
    the [finally] suite raises UnboundLocalError, the exception leaves
    the loop of [run], and [roads.csv] is never taken up. *)
Theorem cursor_failure_aborts_batch :
  glob (fs connection_lost "/data") "/data" "*.csv" = Ok [shops; roads]
  /\ import_file_to_database shops TheConnection connection_lost []
     = (Raise UnboundLocalError,
        [ Log INFO (Importing shops "shops");
          Ext ConnCursor (Some Psycopg2Error);
          Log ERROR (ImportFailed shops "shops") ])
  /\ run "./config.yml" connection_lost [] =
       (Ok tt,
        [ Log INFO AppStarted;
          Ext (OpenYaml "./config.yml") None;
          Ext (Glob "/data" "*.csv") None;
          Ext (Connect [ ("host", PStr "localhost"); ("port", PInt 5432);
                         ("dbname", PStr "osm"); ("user", PStr "importer") ]) None;
          Log INFO (Importing shops "shops");
          Ext ConnCursor (Some Psycopg2Error);
          Log ERROR (ImportFailed shops "shops");
          Log ERROR RunFailed;
          Ext ConnClose None ])
  /\ attempted shops (trace_of (run "./config.yml" connection_lost [])) = true
  /\ attempted roads (trace_of (run "./config.yml" connection_lost [])) = false.
Proof. repeat split; reflexivity. Qed.

(** ** The table name in the statements (C3) *)

(** C3, at [shops.csv].  The stem of the file name is handed to
    [SQL.format] as a plain [str]; [format] accepts only [Composable]
    arguments and raises TypeError for both statements, so the suite
    under the cursor stops before anything is sent.  Wrapped in
    [Identifier], the same name is accepted and rendered between double
    quotes. *)
Theorem raw_table_name_is_refused :
  stem shops = "shops"
  /\ format CREATE_TABLE_SQL [] [("table_name", ArgStr "shops")] = Raise TypeError
  /\ format COPY_SQL [] [("table_name", ArgStr "shops")] = Raise TypeError
  /\ import_suite shops "shops" (CursorOf TheConnection) healthy []
     = (Raise TypeError, [])
  /\ existsb is_statement (trace_of (run "./config.yml" healthy [])) = false
  /\ option_map as_string
       (match format COPY_SQL [] [("table_name", ArgComposable (Identifier "shops"))] with
        | Ok q => Some q
        | Raise _ => None
        end)
     = Some (join_lines
               [ EmptyString;
                 "                            COPY " ++ quote_ident "shops"
                   ++ " FROM stdin WITH CSV HEADER";
                 "                            DELIMITER as ','";
                 "                            " ]).
Proof. repeat split; reflexivity. Qed.

(** ** Provisioning twice (C4) *)

(** C4, at [shops.csv] over a database that accepts every call.  Two
    invocations in succession for the same file: the provisioning step
    raises TypeError in both, no CREATE TABLE is sent, and each
    invocation logs the failure of the file. *)
Theorem provisioning_fails_on_every_invocation :
  (import_file_to_database shops TheConnection ;;
   import_file_to_database shops TheConnection) healthy [] =
    (Ok tt,
     [ Log INFO (Importing shops "shops");
       Ext ConnCursor None; Ext CurClose None;
       Log ERROR (ImportFailed shops "shops");
       Ext CurClose None;
       Log INFO (Importing shops "shops");
       Ext ConnCursor None; Ext CurClose None;
       Log ERROR (ImportFailed shops "shops");
       Ext CurClose None ])
  /\ forall tr,
       import_suite shops "shops" (CursorOf TheConnection) healthy tr
       = (Raise TypeError, tr).
Proof. split; [reflexivity | intros tr; apply import_suite_raises]. Qed.

(** * Further properties of run.py *)

(** ** Which files are discovered *)

(** One step of the star of [fnmatch]: the rest of the pattern matches
    here, or the star takes one more character. *)
Lemma fnmatch_star pat name :
  fnmatch (String "*" pat) name =
  fnmatch pat name
  || match name with
     | EmptyString => false
     | String _ name' => fnmatch (String "*" pat) name'
     end.
Proof. destruct name; reflexivity. Qed.

(** The literal rest of the pattern matches one name only. *)
Lemma fnmatch_dot_csv name : fnmatch ".csv" name = true <-> name = ".csv".
Proof.
  assert (E : fnmatch ".csv" name = String.eqb ".csv" name)
    by (destruct name as [|a1 [|a2 [|a3 [|a4 rest]]]]; reflexivity).
  rewrite E, String.eqb_eq. split; congruence.
Qed.

Lemma fnmatch_star_csv name :
  fnmatch "*.csv" name = true <-> exists base, name = base ++ ".csv".
Proof.
  induction name as [|a rest IH].
  - split; [discriminate|]. intros ([|b base] & H); discriminate H.
  - rewrite fnmatch_star, orb_true_iff, fnmatch_dot_csv, IH. split.
    + intros [H | (base & ->)].
      * exists EmptyString. exact H.
      * exists (String a base). reflexivity.
    + intros ([|b base] & H).
      * left. exact H.
      * right. exists base. now inversion H.
Qed.

(** For a readable directory, [list_files] returns without raising, and
    the paths it returns are exactly the direct entries of the directory
    whose name ends in [.csv] (case-sensitive), each under the directory
    that was searched; entries with other names change nothing. *)
Theorem list_files_exactly_csv (w : World) (directory : string)
  (entries : list string) (tr : list entry) :
  fs w directory = Directory true entries ->
  exists files,
    fst (list_files (PStr directory) w tr) = Ok files
    /\ forall p, In p files <->
                 (parent p = directory /\ In (name p) entries
                  /\ exists base, name p = base ++ ".csv").
Proof.
  intros H.
  exists (map (mkPath directory) (filter (fnmatch "*.csv") entries)). split.
  { unfold list_files, path_glob. now rewrite H. }
  intros p. rewrite in_map_iff. split.
  - intros (n & <- & Hin). apply filter_In in Hin as [Hin Hm].
    cbn. now rewrite <- fnmatch_star_csv.
  - intros (Hp & Hin & Hb). exists (name p). split.
    + destruct p. cbn in *. now subst.
    + apply filter_In. split; [exact Hin|]. now apply fnmatch_star_csv.
Qed.

Lemma list_files_exactly_csv_witness :
  fs healthy "/data" = Directory true ["shops.csv"; "readme.txt"; "roads.csv"]
  /\ exists files,
       fst (list_files (PStr "/data") healthy []) = Ok files
       /\ forall p, In p files <->
                    (parent p = "/data"
                     /\ In (name p) ["shops.csv"; "readme.txt"; "roads.csv"]
                     /\ exists base, name p = base ++ ".csv").
Proof.
  split.
  - reflexivity.
  - apply (list_files_exactly_csv healthy "/data"
             ["shops.csv"; "readme.txt"; "roads.csv"] []).
    reflexivity.
Defined.

(** ** The table name of a discovered file *)

Lemma rfind_app c s t :
  rfind c (s ++ t) =
  match rfind c t with
  | Some i => Some (String.length s + i)
  | None => rfind c s
  end.
Proof.
  induction s as [|a s IH]; cbn.
  - now destruct (rfind c t).
  - rewrite IH. now destruct (rfind c t).
Qed.

Lemma substring_prefix s t : substring 0 (String.length s) (s ++ t) = s.
Proof.
  induction s as [|a s IH]; cbn.
  - now destruct t.
  - now rewrite IH.
Qed.

Lemma length_append s t :
  String.length (s ++ t) = String.length s + String.length t.
Proof. induction s as [|a s IH]; cbn; auto. Qed.

(** The table name of a file [base.csv] is [base], whatever dots [base]
    holds; the one exception is the file called [.csv], whose table name
    is the whole name. *)
Theorem stem_of_csv_file (directory base : string) :
  stem (mkPath directory (base ++ ".csv"))
  = if is_empty base then ".csv" else base.
Proof.
  unfold stem. cbn [name]. rewrite rfind_app.
  change (rfind "." ".csv") with (Some 0). cbn iota.
  rewrite Nat.add_0_r, length_append.
  destruct base as [|a base]; [reflexivity|].
  cbn [is_empty].
  replace (0 <? String.length (String a base))%nat with true
    by (symmetry; apply Nat.ltb_lt; cbn; lia).
  replace (String.length (String a base)
           <? String.length (String a base) + String.length ".csv" - 1)%nat
    with true by (symmetry; apply Nat.ltb_lt; cbn; lia).
  cbn [andb]. apply substring_prefix.
Qed.

(** ** The configuration keys *)

(** A run whose configuration loads and names a directory that can be
    listed gets as far as the [try] of line 51 with the files found. *)
Lemma run_past_listing config cfg directory files w :
  yaml_file w config = Ok cfg ->
  subscript cfg "target_path" = Ok (PStr directory) ->
  glob (fs w directory) directory "*.csv" = Ok files ->
  run config w [] =
    try_assign_except_finally
      (connect cfg)
      (fun db_conn =>
         for_each files (fun file => import_file_to_database file db_conn) ;;
         logging INFO ImportComplete)
      (logging ERROR RunFailed)
      (fun db_conn =>
         match db_conn with
         | Some c => connection_method c "close" ConnClose
         | None => ret tt
         end)
      w [Log INFO AppStarted; Ext (OpenYaml config) None;
         Ext (Glob directory "*.csv") None].
Proof.
  intros Hy Ht Hg. rewrite (run_listing config cfg directory w Hy Ht).
  now rewrite Hg.
Qed.

(** A configuration without the [target_path] key: [config['target_path']]
    raises KeyError at line 49, outside the [try], and the run ends with
    that exception before anything is listed or connected; nothing is
    logged at ERROR level. *)
Theorem missing_target_path_raises (config : string) (w : World)
  (items : list (string * pyval)) :
  yaml_file w config = Ok (PDict items) ->
  dict_get items "target_path" = None ->
  run config w [] =
    (Raise KeyError, [Log INFO AppStarted; Ext (OpenYaml config) None]).
Proof.
  intros Hy Hk.
  unfold run. unfold bind at 1. unfold logging at 1.
  unfold bind at 1. unfold read_yaml_config, try_except_Exception, open_yaml.
  rewrite Hy. unfold bind at 1, lift at 1. cbn [subscript]. rewrite Hk.
  reflexivity.
Qed.

Lemma missing_target_path_raises_witness :
  (yaml_file no_target_path "./config.yml"
     = Ok (PDict [("db", PDict [("host", PStr "localhost")])])
   /\ dict_get [("db", PDict [("host", PStr "localhost")])] "target_path" = None)
  /\ run "./config.yml" no_target_path [] =
       (Raise KeyError, [Log INFO AppStarted; Ext (OpenYaml "./config.yml") None]).
Proof.
  split.
  - split; reflexivity.
  - apply (missing_target_path_raises "./config.yml" no_target_path
             [("db", PDict [("host", PStr "localhost")])]); reflexivity.
Defined.

(** A [target_path] that is not a string (a number, a mapping, null):
    [Path(search_folder)] raises TypeError in [list_files], again outside
    the [try], and the run ends there. *)
Theorem target_path_not_a_string_raises (config : string) (w : World)
  (cfg v : pyval) :
  yaml_file w config = Ok cfg ->
  subscript cfg "target_path" = Ok v ->
  (forall s, v <> PStr s) ->
  run config w [] =
    (Raise TypeError, [Log INFO AppStarted; Ext (OpenYaml config) None]).
Proof.
  intros Hy Ht Hv.
  unfold run. unfold bind at 1. unfold logging at 1.
  unfold bind at 1. unfold read_yaml_config, try_except_Exception, open_yaml.
  rewrite Hy. unfold bind at 1, lift at 1. rewrite Ht.
  unfold bind at 1.
  destruct v as [|s| |]; try reflexivity.
  now destruct (Hv s).
Qed.

Lemma target_path_not_a_string_raises_witness :
  (yaml_file numeric_target_path "./config.yml"
     = Ok (PDict [("target_path", PInt 5);
                  ("db", PDict [("host", PStr "localhost")])])
   /\ subscript (PDict [("target_path", PInt 5);
                        ("db", PDict [("host", PStr "localhost")])])
        "target_path" = Ok (PInt 5)
   /\ (forall s, PInt 5 <> PStr s))
  /\ run "./config.yml" numeric_target_path [] =
       (Raise TypeError, [Log INFO AppStarted; Ext (OpenYaml "./config.yml") None]).
Proof.
  split.
  - split; [reflexivity|]. split; [reflexivity|]. intros s H. discriminate H.
  - apply (target_path_not_a_string_raises "./config.yml" numeric_target_path
             (PDict [("target_path", PInt 5);
                     ("db", PDict [("host", PStr "localhost")])]) (PInt 5));
      [reflexivity | reflexivity | intros s H; discriminate H].
Defined.

(** A configuration without the [db] key behaves differently from one
    without [target_path]: once the directory has been listed,
    [config['db']] is evaluated inside the [try] (line 53), so its
    KeyError is caught and handed to [logging.error], the run returns
    normally, and it has neither connected nor processed a file. *)
Theorem missing_db_key_is_logged (config directory : string) (w : World)
  (items : list (string * pyval)) (files : list Path) :
  yaml_file w config = Ok (PDict items) ->
  dict_get items "target_path" = Some (PStr directory) ->
  glob (fs w directory) directory "*.csv" = Ok files ->
  dict_get items "db" = None ->
  run config w [] =
    (Ok tt,
     [Log INFO AppStarted; Ext (OpenYaml config) None;
      Ext (Glob directory "*.csv") None; Log ERROR RunFailed]).
Proof.
  intros Hy Ht Hg Hd.
  rewrite (run_past_listing config (PDict items) directory files w Hy)
    by (auto; cbn [subscript]; now rewrite Ht).
  unfold try_assign_except_finally, connect, bind, lift.
  cbn [subscript]. rewrite Hd. reflexivity.
Qed.

Lemma missing_db_key_is_logged_witness :
  (yaml_file no_db_key "./config.yml" = Ok (PDict [("target_path", PStr "/data")])
   /\ dict_get [("target_path", PStr "/data")] "target_path" = Some (PStr "/data")
   /\ glob (fs no_db_key "/data") "/data" "*.csv" = Ok [shops; roads]
   /\ dict_get [("target_path", PStr "/data")] "db" = None)
  /\ run "./config.yml" no_db_key [] =
       (Ok tt,
        [Log INFO AppStarted; Ext (OpenYaml "./config.yml") None;
         Ext (Glob "/data" "*.csv") None; Log ERROR RunFailed]).
Proof.
  split.
  - repeat split; reflexivity.
  - apply (missing_db_key_is_logged "./config.yml" "/data" no_db_key
             [("target_path", PStr "/data")] [shops; roads]); reflexivity.
Defined.

(** ** A directory without CSV files *)

(** When the directory yields no file and the server accepts the
    connection, the run still connects, logs its completion, closes the
    connection and returns what [close] returns: the connection is opened
    although there is nothing to import. *)
Theorem nothing_to_import_still_connects (config directory : string)
  (w : World) (items params : list (string * pyval)) :
  yaml_file w config = Ok (PDict items) ->
  dict_get items "target_path" = Some (PStr directory) ->
  dict_get items "db" = Some (PDict params) ->
  nothing_to_list (fs w directory) "*.csv" = true ->
  db w [Log INFO AppStarted; Ext (OpenYaml config) None;
        Ext (Glob directory "*.csv") None] (Connect params) = None ->
  exists o,
    run config w [] =
      (match o with Some e => Raise e | None => Ok tt end,
       [Log INFO AppStarted; Ext (OpenYaml config) None;
        Ext (Glob directory "*.csv") None; Ext (Connect params) None;
        Log INFO ImportComplete; Ext ConnClose o]).
Proof.
  intros Hy Ht Hd Hn Hc.
  rewrite (run_past_listing config (PDict items) directory [] w Hy)
    by (try apply glob_nothing; auto; cbn [subscript]; now rewrite Ht).
  unfold try_assign_except_finally, connect, bind at 1, lift.
  cbn [subscript]. rewrite Hd. unfold bind at 1, db_call at 1.
  rewrite Hc. unfold ret at 1.
  unfold try_finally, try_except_Exception, for_each, bind, ret, logging,
    connection_method, call_method.
  change (has_attr connection_attrs "close") with true. cbn iota.
  unfold db_call, record. cbn [app].
  match goal with |- context [db w ?h ConnClose] => exists (db w h ConnClose) end.
  destruct (db w _ ConnClose); reflexivity.
Qed.

Lemma nothing_to_import_still_connects_witness :
  (yaml_file no_csv_files "./config.yml"
     = Ok (PDict [ ("target_path", PStr "/data");
                   ("db", PDict [ ("host", PStr "localhost"); ("port", PInt 5432);
                                  ("dbname", PStr "osm"); ("user", PStr "importer") ]) ])
   /\ nothing_to_list (fs no_csv_files "/data") "*.csv" = true)
  /\ exists o,
       run "./config.yml" no_csv_files [] =
         (match o with Some e => Raise e | None => Ok tt end,
          [Log INFO AppStarted; Ext (OpenYaml "./config.yml") None;
           Ext (Glob "/data" "*.csv") None;
           Ext (Connect [ ("host", PStr "localhost"); ("port", PInt 5432);
                          ("dbname", PStr "osm"); ("user", PStr "importer") ]) None;
           Log INFO ImportComplete; Ext ConnClose o]).
Proof.
  split.
  - split; reflexivity.
  - apply (nothing_to_import_still_connects "./config.yml" "/data" no_csv_files
             [ ("target_path", PStr "/data");
               ("db", PDict [ ("host", PStr "localhost"); ("port", PInt 5432);
                              ("dbname", PStr "osm"); ("user", PStr "importer") ]) ]);
      reflexivity.
Defined.

(** ** Reading the configuration *)

(** [read_yaml_config] never lets an exception through that an
    [except Exception] would catch, and it returns [None] in two
    situations that its caller cannot tell apart: the document is empty
    (null), or the file could not be opened or parsed. *)
Theorem read_yaml_config_swallows (config_path : string) (w : World)
  (tr : list entry) :
  (forall e, fst (read_yaml_config config_path w tr) = Raise e ->
             is_Exception e = false)
  /\ (fst (read_yaml_config config_path w tr) = Ok PNone <->
      (yaml_file w config_path = Ok PNone
       \/ exists e, yaml_file w config_path = Raise e /\ is_Exception e = true)).
Proof.
  unfold read_yaml_config, try_except_Exception, open_yaml, bind, logging, ret.
  destruct (yaml_file w config_path) as [v|e] eqn:E; cbn [fst].
  - split; [discriminate|]. split.
    + intros H. left. exact H.
    + intros [H | (e & H & _)]; [exact H | discriminate H].
  - destruct (is_Exception e) eqn:Ex; cbn [fst].
    + split; [discriminate|]. split; [|reflexivity].
      intros _. right. now exists e.
    + split; [intros e' H; now inversion H; subst|]. split.
      * discriminate.
      * intros [H | (e' & H & Ex')]; [discriminate H|].
        inversion H; subst. congruence.
Qed.

Lemma read_yaml_config_swallows_witness :
  fst (read_yaml_config "./missing.yml" healthy []) = Ok PNone
  /\ (forall e, fst (read_yaml_config "./config.yml" interrupted []) = Raise e ->
                is_Exception e = false)
  /\ fst (read_yaml_config "./config.yml" interrupted []) = Raise KeyboardInterrupt.
Proof.
  split.
  - apply (read_yaml_config_swallows "./missing.yml" healthy []).
    right. exists OSError. split; reflexivity.
  - split.
    + apply (read_yaml_config_swallows "./config.yml" interrupted []).
    + reflexivity.
Defined.

(** ** What a run never does *)

Lemma startup_no_open_file e : is_startup e = true -> is_open_file e = false.
Proof. destruct e as [[] []|[] []]; simpl; congruence. Qed.

Lemma job_no_open_file e : is_job e = true -> is_open_file e = false.
Proof. destruct e as [[] []|[] []]; simpl; congruence. Qed.

Lemma startup_no_connect e : is_startup e = true -> is_connect e = false.
Proof. destruct e as [[] []|[] []]; simpl; congruence. Qed.

Lemma job_no_connect e : is_job e = true -> is_connect e = false.
Proof. destruct e as [[] []|[] []]; simpl; congruence. Qed.

#[local] Hint Resolve startup_no_open_file job_no_open_file
  startup_no_connect job_no_connect : shape.

Lemma no_file_opened config w :
  existsb is_open_file (trace_of (run config w [])) = false.
Proof.
  destruct (run_shape config w)
    as [(e0 & pre & E & F) | [(pre & E & F) | [(pre & ps & e0 & F & E)
       | (pre & ps & mid & o & r & F & Fm & E)]]];
    rewrite E; cbn [trace_of snd]; absent; try reflexivity.
  destruct (is_Exception e0); reflexivity.
Qed.

(** Whatever the configuration, the directory and the database do, a run
    sends no statement to the server (neither the CREATE TABLE nor the
    COPY), opens no data file and copies no row: every file stops at the
    construction of its first statement. *)
Theorem run_never_reaches_the_server (config : string) (w : World) :
  existsb is_statement (trace_of (run config w [])) = false
  /\ existsb is_open_file (trace_of (run config w [])) = false
  /\ rows_copied (trace_of (run config w [])) = 0.
Proof.
  split; [apply no_statement_sent|].
  split; [apply no_file_opened | apply nothing_copied].
Qed.

Lemma count_app P a b : count P (a ++ b) = count P a + count P b.
Proof. unfold count. now rewrite filter_app, length_app. Qed.

Lemma count_none (P Q : entry -> bool) (l : list entry) :
  (forall e, P e = true -> Q e = false) ->
  forallb P l = true -> count Q l = 0.
Proof.
  intros H. unfold count. induction l as [|x l IH]; simpl; auto.
  intros F. apply andb_true_iff in F as [Fx Fl]. now rewrite (H x Fx), IH.
Qed.

(** A run calls [connect] at most once: the files share one connection. *)
Theorem at_most_one_connection (config : string) (w : World) :
  count is_connect (trace_of (run config w [])) <= 1.
Proof.
  destruct (run_shape config w)
    as [(e0 & pre & E & F) | [(pre & E & F) | [(pre & ps & e0 & F & E)
       | (pre & ps & mid & o & r & F & Fm & E)]]];
    rewrite E; cbn [trace_of snd].
  - rewrite (count_none is_startup is_connect pre); auto with shape.
  - rewrite count_app, (count_none is_startup is_connect pre); auto with shape.
  - rewrite count_app, (count_none is_startup is_connect pre); auto with shape.
    destruct (is_Exception e0); cbn; lia.
  - change (Ext (Connect ps) None :: mid ++ [Ext ConnClose o])%list
      with ([Ext (Connect ps) None] ++ mid ++ [Ext ConnClose o])%list.
    rewrite !count_app, (count_none is_startup is_connect pre),
      (count_none is_job is_connect mid); auto with shape.
Qed.

(** Without a connection nothing is done for any file: unless [connect]
    returned, the run asks for no cursor and logs no file. *)
Theorem no_connection_no_file_activity (config : string) (w : World) :
  existsb connect_returned (trace_of (run config w [])) = false ->
  existsb is_file_activity (trace_of (run config w [])) = false.
Proof.
  destruct (run_shape config w)
    as [(e0 & pre & E & F) | [(pre & E & F) | [(pre & ps & e0 & F & E)
       | (pre & ps & mid & o & r & F & Fm & E)]]];
    rewrite E; cbn [trace_of snd]; intros H; absent;
    cbn [connect_returned orb] in H; try discriminate H; try reflexivity.
  destruct (is_Exception e0); reflexivity.
Qed.

Lemma no_connection_no_file_activity_witness :
  existsb connect_returned (trace_of (run "./config.yml" no_db_key [])) = false
  /\ existsb is_file_activity (trace_of (run "./config.yml" no_db_key [])) = false.
Proof.
  split.
  - reflexivity.
  - apply (no_connection_no_file_activity "./config.yml" no_db_key). reflexivity.
Defined.

(** ** Cursors *)

(** Every cursor that [import_file_to_database] obtains is closed twice,
    by the [with] block and by the [finally] suite, and [close] is never
    called for a cursor that was not obtained. *)
Lemma import_file_cursor_balance file_path conn w tr :
  exists added,
    snd (import_file_to_database file_path conn w tr) = (tr ++ added)%list
    /\ count cursor_closed added = 2 * count cursor_opened added.
Proof.
  rewrite import_file_cases. cbv zeta.
  set (tr1 := record (Log INFO (Importing file_path (stem file_path))) tr).
  destruct (db w tr1 ConnCursor) as [e|].
  - destruct (is_Exception e); cbn [snd]; unfold tr1, record;
      rewrite <- ?app_assoc; eexists; (split; [reflexivity|reflexivity]).
  - set (tr2 := record (Ext ConnCursor None) tr1).
    set (exit := db w tr2 CurClose).
    set (ex := match exit with Some e' => e' | None => TypeError end).
    destruct (is_Exception ex); cbn [snd]; unfold tr2, tr1, record;
      rewrite <- ?app_assoc; eexists; (split; [reflexivity|reflexivity]).
Qed.

(** Over the whole loop of [run], for any files and whatever the database
    does: the number of [close] calls on cursors is twice the number of
    cursors obtained, so no cursor is left open and none is closed that
    was never opened. *)
Theorem cursors_closed_twice (files : list Path) (conn : Connection)
  (w : World) (tr : list entry) :
  exists added,
    snd (for_each files (fun f => import_file_to_database f conn) w tr)
    = (tr ++ added)%list
    /\ count cursor_closed added = 2 * count cursor_opened added.
Proof.
  revert tr. induction files as [|x rest IH]; intros tr.
  - exists []. split; [cbn; now rewrite app_nil_r | reflexivity].
  - cbn [for_each]. unfold bind.
    destruct (import_file_cursor_balance x conn w tr) as (a1 & E1 & B1).
    destruct (import_file_to_database x conn w tr) as [[u|e] tr1];
      cbn [snd] in E1; subst tr1.
    + destruct (IH (tr ++ a1)%list) as (a2 & E2 & B2).
      exists (a1 ++ a2)%list. rewrite E2, app_assoc, !count_app. split; [reflexivity|lia].
    + exists a1. split; [reflexivity|exact B1].
Qed.

(** ** Errors of the database stay in the log *)

Lemma import_raises_only_Exceptions file_path conn w tr e :
  only_Exceptions w ->
  fst (import_file_to_database file_path conn w tr) = Raise e ->
  is_Exception e = true.
Proof.
  intros Hw. rewrite import_file_cases. cbv zeta.
  set (tr1 := record (Log INFO (Importing file_path (stem file_path))) tr).
  destruct (db w tr1 ConnCursor) as [e0|].
  - cbn [fst]. intros H. inversion H. reflexivity.
  - set (tr2 := record (Ext ConnCursor None) tr1).
    destruct (db w tr2 CurClose) as [e1|] eqn:E1; cbn iota.
    + rewrite (Hw _ _ _ E1).
      match goal with
      | |- context [db w ?h CurClose] => destruct (db w h CurClose) as [e2|] eqn:E2
      end; cbn [fst]; intros H; [|discriminate H].
      inversion H; subst. exact (Hw _ _ _ E2).
    + change (is_Exception TypeError) with true. cbn iota.
      match goal with
      | |- context [db w ?h CurClose] => destruct (db w h CurClose) as [e2|] eqn:E2
      end; cbn [fst]; intros H; [|discriminate H].
      inversion H; subst. exact (Hw _ _ _ E2).
Qed.

Lemma loop_raises_only_Exceptions files conn w tr e :
  only_Exceptions w ->
  fst (for_each files (fun f => import_file_to_database f conn) w tr) = Raise e ->
  is_Exception e = true.
Proof.
  intros Hw. revert tr. induction files as [|x rest IH]; intros tr.
  - discriminate.
  - cbn [for_each]. unfold bind.
    destruct (import_file_to_database x conn w tr) as [[u|e'] tr1] eqn:E.
    + apply IH.
    + cbn [fst]. intros H. inversion H; subst.
      apply (import_raises_only_Exceptions x conn w tr); auto.
      now rewrite E.
Qed.

(** Once the configuration has loaded and the directory it names has
    been listed, a run never raises, whatever the database answers: if
    the driver raises only subclasses of [Exception] and closing the
    connection goes through, [run] returns normally, even when [connect]
    or every file failed.  Failures are handed to [logging.error] only. *)
Theorem run_swallows_database_errors (config directory : string) (cfg : pyval)
  (files : list Path) (w : World) :
  yaml_file w config = Ok cfg ->
  subscript cfg "target_path" = Ok (PStr directory) ->
  glob (fs w directory) directory "*.csv" = Ok files ->
  only_Exceptions w ->
  (forall h, db w h ConnClose = None) ->
  fst (run config w []) = Ok tt.
Proof.
  intros Hy Ht Hg Hw Hclose.
  rewrite (run_past_listing config cfg directory files w Hy Ht Hg).
  unfold try_assign_except_finally.
  set (pre := [Log INFO AppStarted; Ext (OpenYaml config) None;
               Ext (Glob directory "*.csv") None]).
  assert (Hfail : forall e tr, is_Exception e = true ->
            fst (try_finally
                   (try_except_Exception (raise e) (logging ERROR RunFailed))
                   (ret tt) w tr) = Ok tt).
  { intros e tr He.
    unfold try_finally, try_except_Exception, raise, logging, ret.
    now rewrite He. }
  destruct (connect_cases cfg w pre) as [(e & He & ->) | (params & ->)].
  - now apply Hfail.
  - destruct (db w pre (Connect params)) as [e|] eqn:Ec.
    + apply Hfail. exact (Hw _ _ _ Ec).
    + unfold try_finally.
      destruct (try_except_Exception _ _ w _) as [r tr3] eqn:Eb.
      unfold connection_method, call_method.
      change (has_attr connection_attrs "close") with true. cbn iota.
      unfold db_call. rewrite Hclose. cbn [fst].
      unfold try_except_Exception, bind in Eb.
      destruct (for_each _ _ w _) as [[u|e] tr4] eqn:El.
      * unfold logging in Eb. now inversion Eb.
      * assert (He : is_Exception e = true).
        { apply (loop_raises_only_Exceptions files TheConnection w
                   (record (Ext (Connect params) None) pre)); auto.
          now rewrite El. }
        rewrite He in Eb. unfold logging in Eb. now inversion Eb.
Qed.

Lemma only_Exceptions_connection_lost : only_Exceptions connection_lost.
Proof.
  intros h c e. destruct c; cbn; intros H; try discriminate H.
  now inversion H.
Defined.

Lemma run_swallows_database_errors_witness :
  (yaml_file connection_lost "./config.yml" = Ok config_yml
   /\ subscript config_yml "target_path" = Ok (PStr "/data")
   /\ glob (fs connection_lost "/data") "/data" "*.csv" = Ok [shops; roads]
   /\ only_Exceptions connection_lost
   /\ (forall h, db connection_lost h ConnClose = None))
  /\ fst (run "./config.yml" connection_lost []) = Ok tt.
Proof.
  split.
  - split; [reflexivity|]. split; [reflexivity|]. split; [reflexivity|].
    split; [exact only_Exceptions_connection_lost | intros h; reflexivity].
  - apply (run_swallows_database_errors "./config.yml" "/data" config_yml
             [shops; roads] connection_lost);
      [reflexivity | reflexivity | reflexivity
      | exact only_Exceptions_connection_lost | intros h; reflexivity].
Defined.

(** ** Witnesses for the loop *)

Lemma files_isolated_when_cursor_opens_witness :
  ((forall h, db healthy h ConnCursor = None)
   /\ (forall h, db healthy h CurClose = None))
  /\ fst (for_each [shops; roads]
            (fun f => import_file_to_database f TheConnection) healthy []) = Ok tt
  /\ forall f, In f [shops; roads] ->
       attempted f
         (snd (for_each [shops; roads]
                 (fun f => import_file_to_database f TheConnection) healthy []))
       = true.
Proof.
  split.
  - split; intros h; reflexivity.
  - apply (files_isolated_when_cursor_opens [shops; roads] TheConnection healthy []);
      intros h; reflexivity.
Defined.

Lemma cursor_failure_escapes_witness :
  db connection_lost
     (record (Log INFO (Importing shops (stem shops))) []) ConnCursor
    = Some Psycopg2Error
  /\ fst (import_file_to_database shops TheConnection connection_lost [])
     = Raise UnboundLocalError.
Proof.
  split.
  - reflexivity.
  - apply (cursor_failure_escapes shops TheConnection connection_lost []
             Psycopg2Error).
    reflexivity.
Defined.

(** ** A run over a working database *)

(** With a cursor that can always be obtained and closed, the loop goes
    through every file once, in the order of the list, and every file
    fails in the same way: announced, cursor obtained, failure logged,
    cursor closed; the loop itself returns normally. *)
Theorem loop_on_working_cursor (files : list Path) (conn : Connection)
  (w : World) (tr : list entry) :
  (forall h, db w h ConnCursor = None) ->
  (forall h, db w h CurClose = None) ->
  for_each files (fun f => import_file_to_database f conn) w tr
  = (Ok tt, (tr ++ flat_map failed_import files)%list).
Proof.
  intros Hc Hx. revert tr. induction files as [|x rest IH]; intros tr.
  - cbn. now rewrite app_nil_r.
  - cbn [for_each flat_map]. unfold bind.
    rewrite (import_file_contained x conn w tr Hc Hx), IH.
    now rewrite <- app_assoc.
Qed.

Lemma loop_on_working_cursor_witness :
  ((forall h, db healthy h ConnCursor = None)
   /\ (forall h, db healthy h CurClose = None))
  /\ for_each [shops; roads]
       (fun f => import_file_to_database f TheConnection) healthy []
     = (Ok tt, ([] ++ flat_map failed_import [shops; roads])%list).
Proof.
  split.
  - split; intros h; reflexivity.
  - apply (loop_on_working_cursor [shops; roads] TheConnection healthy []);
      intros h; reflexivity.
Defined.

(** The whole run over a directory that can be listed and a database
    that accepts the connection and every cursor: each file found is
    attempted and fails, yet the run calls [logging.info] for its
    completion (never the [logging.error] of line 61), closes the
    connection and returns what [close] returns. *)
Theorem run_on_working_database (config directory : string) (w : World)
  (items params : list (string * pyval)) (files : list Path) :
  yaml_file w config = Ok (PDict items) ->
  dict_get items "target_path" = Some (PStr directory) ->
  glob (fs w directory) directory "*.csv" = Ok files ->
  dict_get items "db" = Some (PDict params) ->
  db w [Log INFO AppStarted; Ext (OpenYaml config) None;
        Ext (Glob directory "*.csv") None] (Connect params) = None ->
  (forall h, db w h ConnCursor = None) ->
  (forall h, db w h CurClose = None) ->
  exists o,
    run config w [] =
      (match o with Some e => Raise e | None => Ok tt end,
       [Log INFO AppStarted; Ext (OpenYaml config) None;
        Ext (Glob directory "*.csv") None; Ext (Connect params) None]
       ++ flat_map failed_import files
       ++ [Log INFO ImportComplete; Ext ConnClose o])%list.
Proof.
  intros Hy Ht Hg Hd Hconn Hc Hx.
  rewrite (run_past_listing config (PDict items) directory files w Hy)
    by (auto; cbn [subscript]; now rewrite Ht).
  unfold try_assign_except_finally, connect, bind at 1, lift.
  cbn [subscript]. rewrite Hd. unfold bind at 1, db_call at 1.
  rewrite Hconn. unfold ret at 1.
  unfold try_finally, try_except_Exception, bind.
  rewrite (loop_on_working_cursor _ TheConnection w _ Hc Hx).
  unfold logging, connection_method, call_method.
  change (has_attr connection_attrs "close") with true. cbn iota.
  unfold db_call, record.
  match goal with |- context [db w ?h ConnClose] => exists (db w h ConnClose) end.
  destruct (db w _ ConnClose); cbn [app]; rewrite <- ?app_assoc; reflexivity.
Qed.

Lemma run_on_working_database_witness :
  (yaml_file healthy "./config.yml"
     = Ok (PDict [ ("target_path", PStr "/data");
                   ("db", PDict [ ("host", PStr "localhost"); ("port", PInt 5432);
                                  ("dbname", PStr "osm"); ("user", PStr "importer") ]) ])
   /\ glob (fs healthy "/data") "/data" "*.csv" = Ok [shops; roads]
   /\ (forall h, db healthy h ConnCursor = None)
   /\ (forall h, db healthy h CurClose = None))
  /\ exists o,
       run "./config.yml" healthy [] =
         (match o with Some e => Raise e | None => Ok tt end,
          [Log INFO AppStarted; Ext (OpenYaml "./config.yml") None;
           Ext (Glob "/data" "*.csv") None;
           Ext (Connect [ ("host", PStr "localhost"); ("port", PInt 5432);
                          ("dbname", PStr "osm"); ("user", PStr "importer") ]) None]
          ++ flat_map failed_import [shops; roads]
          ++ [Log INFO ImportComplete; Ext ConnClose o])%list.
Proof.
  split.
  - split; [reflexivity|]. split; [reflexivity|]. split; intros h; reflexivity.
  - apply (run_on_working_database "./config.yml" "/data" healthy
             [ ("target_path", PStr "/data");
               ("db", PDict [ ("host", PStr "localhost"); ("port", PInt 5432);
                              ("dbname", PStr "osm"); ("user", PStr "importer") ]) ]
             _ [shops; roads]);
      try reflexivity; intros h; reflexivity.
Defined.

(** ** A cursor that cannot be obtained *)

(** When [conn.cursor()] raises for a file, the loop ends at that file
    with UnboundLocalError in place of the driver's exception: the
    failure is logged for the file (if [except Exception] catches it),
    no [close] is attempted, and none of the files after it is taken
    up. *)
Theorem cursor_failure_stops_loop (x : Path) (rest : list Path)
  (conn : Connection) (w : World) (tr : list entry) (e : exn) :
  db w (record (Log INFO (Importing x (stem x))) tr) ConnCursor = Some e ->
  for_each (x :: rest) (fun f => import_file_to_database f conn) w tr
  = (Raise UnboundLocalError,
     (tr ++ Log INFO (Importing x (stem x))
         :: Ext ConnCursor (Some e)
         :: (if is_Exception e
             then [Log ERROR (ImportFailed x (stem x))] else []))%list).
Proof.
  intros H. cbn [for_each]. unfold bind.
  rewrite import_file_cases. cbv zeta. rewrite H. unfold record.
  destruct (is_Exception e); rewrite <- ?app_assoc; reflexivity.
Qed.

Lemma cursor_failure_stops_loop_witness :
  db connection_lost (record (Log INFO (Importing shops (stem shops))) [])
     ConnCursor = Some Psycopg2Error
  /\ for_each [shops; roads]
       (fun f => import_file_to_database f TheConnection) connection_lost []
     = (Raise UnboundLocalError,
        ([] ++ Log INFO (Importing shops (stem shops))
            :: Ext ConnCursor (Some Psycopg2Error)
            :: (if is_Exception Psycopg2Error
                then [Log ERROR (ImportFailed shops (stem shops))] else []))%list).
Proof.
  split.
  - reflexivity.
  - apply (cursor_failure_stops_loop shops [roads] TheConnection connection_lost
             [] Psycopg2Error).
    reflexivity.
Defined.

(** * The script over any driver *)

(** ** The driver of the script *)











(** ** The statements a driver is handed *)











(** ** Created tables (C5) *)













(** ** Rows copied by a successful import (C2) *)



